(** * Customer review analysis pipeline: cleaning, sentiment buckets, topics

    A shallow embedding of the three batch stages
    - [01_data_cleaning.py]      ([clean_reviews]),
    - [02_sentiment_analysis.py] ([categorize_sentiment]),
    - [03_ai_insights.py]        ([extract_topics_rule_based],
                                  [categorize_review_rule_based],
                                  [generate_executive_summary_template]),
    followed by the properties of the pipeline specification.

    Conventions of the model.
    - A Python [str] is a [string]; a character is a code point below 256
      (the Latin-1 range), on which [str.lower] and [str.strip] act
      character by character.
    - A data frame is the list of its rows, in row order.
    - A finite Python [float] is the rational number [Q] it denotes, and a
      float operation is the exact one followed by rounding to 53
      significant bits (module [Binary64]); [None] stands for NaN where
      the code can produce one.
    - A call that can raise returns [inl] of the exception. *)

From Stdlib Require Import String Ascii List Bool Arith ZArith QArith Lia Lqa.
From Stdlib Require Import Sorting.Sorted Sorting.Permutation.
From Stdlib Require Import Numbers.DecimalString.
Import ListNotations.

Close Scope Q_scope.
Open Scope list_scope.
Open Scope string_scope.

(** ** Python strings *)

Module PyStr.

(** [str.lower] on one code point: [A-Z] and the Latin-1 capitals
    U+00C0..U+00DE (without the multiplication sign U+00D7) move up by 32,
    everything else is kept. *)
Definition lower_char (c : ascii) : ascii :=
  let n := nat_of_ascii c in
  if (((65 <=? n) && (n <=? 90))
      || ((192 <=? n) && (n <=? 222) && negb (n =? 215)))%nat
  then ascii_of_nat (n + 32)
  else c.

Fixpoint lower (s : string) : string :=
  match s with
  | EmptyString => EmptyString
  | String c t => String (lower_char c) (lower t)
  end.

(** [str.isspace] on one code point: the characters [str.strip] removes. *)
Definition isspace (c : ascii) : bool :=
  let n := nat_of_ascii c in
  (((9 <=? n) && (n <=? 13)) || ((28 <=? n) && (n <=? 32))
   || (n =? 133) || (n =? 160))%nat.

Fixpoint lstrip (s : string) : string :=
  match s with
  | EmptyString => EmptyString
  | String c t => if isspace c then lstrip t else s
  end.

Fixpoint rstrip (s : string) : string :=
  match s with
  | EmptyString => EmptyString
  | String c t =>
      match rstrip t with
      | EmptyString => if isspace c then EmptyString else String c EmptyString
      | r => String c r
      end
  end.

Definition strip (s : string) : string := rstrip (lstrip s).

(** [kw in s]: [kw] occurs in [s] as a contiguous run of characters. *)
Fixpoint contains (kw s : string) : bool :=
  prefix kw s
  || match s with
     | EmptyString => false
     | String _ t => contains kw t
     end.

(** [any(word in text for word in words)] *)
Definition any_in (words : list string) (text : string) : bool :=
  existsb (fun word => contains word text) words.

(** [len(s.split())]: the number of maximal runs without whitespace.
    [inword] tells whether the previous character belonged to a run. *)
Fixpoint count_words (inword : bool) (s : string) : nat :=
  match s with
  | EmptyString => 0
  | String c t =>
      if isspace c then count_words false t
      else if inword then count_words true t
      else S (count_words true t)
  end.

Definition word_count (s : string) : nat := count_words false s.

(** First and last character tests used to state that a text is trimmed. *)
Definition starts_with_space (s : string) : bool :=
  match s with
  | EmptyString => false
  | String c _ => isspace c
  end.

Fixpoint ends_with_space (s : string) : bool :=
  match s with
  | EmptyString => false
  | String c EmptyString => isspace c
  | String _ t => ends_with_space t
  end.

(** A text is in lower case when no character of it is changed by
    [str.lower]. *)
Fixpoint all_lower (s : string) : bool :=
  match s with
  | EmptyString => true
  | String c t => Ascii.eqb (lower_char c) c && all_lower t
  end.

Fixpoint all_space (s : string) : bool :=
  match s with
  | EmptyString => true
  | String c t => isspace c && all_space t
  end.

(** [sep.join(parts)] *)
Fixpoint join (sep : string) (parts : list string) : string :=
  match parts with
  | [] => EmptyString
  | [p] => p
  | p :: rest => p ++ sep ++ join sep rest
  end.

End PyStr.


(** ** Stage 1: [01_data_cleaning.py] *)

Module Cleaning.
Import PyStr.

(** A row of the raw CSV file.  A cell is [None] when pandas reads it as
    missing (NaN). *)
Record raw_row : Type := RawRow {
  raw_Text  : option string;
  raw_Score : option Z;
  raw_Time  : option Z
}.

(** A row once [dropna(subset=['Text', 'Score'])] has been applied: both
    required cells are present. *)
Record row : Type := Row {
  Text  : string;
  Score : Z;
  Time  : option Z
}.

(** A row of the returned frame, with the two columns of step 6.  The
    calendar columns of step 5 ([Date], [Year], [Month], [YearMonth]) are
    derived from [Time] alone; they take no part in what follows and are
    not represented. *)
Record clean_row : Type := CleanRow {
  base          : row;
  review_length : nat;
  word_count    : nat
}.

Definition clean_Text (r : clean_row) : string := Text (base r).

Inductive exn : Type :=
| ValueError.

Definition len {A : Type} (df : list A) : Z := Z.of_nat (List.length df).

(** Step 1: [df_sample.dropna(subset=['Text', 'Score'])] *)
Definition dropna (df : list raw_row) : list row :=
  flat_map
    (fun r =>
       match raw_Text r, raw_Score r with
       | Some t, Some s => [Row t s (raw_Time r)]
       | _, _ => []
       end)
    df.

(** Step 2: [df_clean.drop_duplicates(subset=['Text'])], which keeps the
    first row of every group of equal [Text] ([keep='first']).  [seen]
    holds the texts of the rows already passed. *)
Definition mem (t : string) (seen : list string) : bool :=
  existsb (String.eqb t) seen.

Fixpoint drop_duplicates_from (seen : list string) (df : list row) : list row :=
  match df with
  | [] => []
  | r :: rest =>
      if mem (Text r) seen
      then drop_duplicates_from seen rest
      else r :: drop_duplicates_from (Text r :: seen) rest
  end.

Definition drop_duplicates (df : list row) : list row :=
  drop_duplicates_from [] df.

(** Step 3: [df_clean['Text'].str.lower()], then [.str.strip()] *)
Definition set_Text (f : string -> string) (r : row) : row :=
  Row (f (Text r)) (Score r) (Time r).

Definition str_lower (df : list row) : list row := map (set_Text lower) df.
Definition str_strip (df : list row) : list row := map (set_Text strip) df.

(** Step 4: [df_clean[df_clean['Text'].str.len() > 20]] *)
Definition long_enough (r : row) : bool := (20 <? String.length (Text r))%nat.

(** Step 6: [review_length] and [word_count] *)
Definition add_features (r : row) : clean_row :=
  CleanRow r (String.length (Text r)) (PyStr.word_count (Text r)).

(** Steps 1 to 6 on the frame chosen by the sampling step. *)
Definition clean_frame (df_sample : list raw_row) : list clean_row :=
  let df_clean := dropna df_sample in
  let df_clean := drop_duplicates df_clean in
  let df_clean := str_lower df_clean in
  let df_clean := str_strip df_clean in
  let df_clean := filter long_enough df_clean in
  map add_features df_clean.

Section Sampling.

(** [df.sample(n=n, random_state=seed)] belongs to pandas; it is taken as
    given.  It raises for a request it cannot serve. *)
Variable DataFrame_sample : Z -> Z -> list raw_row -> exn + list raw_row.

(** The sampling step.  [sample_size] is [None] or an integer; the test
    [sample_size and sample_size < len(df)] is false for [None] and for 0. *)
Definition take_sample (sample_size : option Z) (df : list raw_row)
  : exn + list raw_row :=
  match sample_size with
  | Some n =>
      if negb (n =? 0)%Z && (n <? len df)%Z
      then DataFrame_sample n 42 df
      else inr df
  | None => inr df
  end.

Definition clean_reviews (sample_size : option Z) (df : list raw_row)
  : exn + list clean_row :=
  match take_sample sample_size df with
  | inl e => inl e
  | inr df_sample => inr (clean_frame df_sample)
  end.

End Sampling.

(** What pandas promises of [sample] without replacement: for a request
    of [n] rows with [0 <= n <= len(df)] it returns [n] rows, taken at
    pairwise different positions of [df]. *)
Definition sample_contract
  (sample : Z -> Z -> list raw_row -> exn + list raw_row) : Prop :=
  forall n seed df,
    (0 <= n <= len df)%Z ->
    exists positions,
      sample n seed df = inr (flat_map (fun i => firstn 1 (skipn i df)) positions)
      /\ len positions = n
      /\ NoDup positions
      /\ Forall (fun i => (i < List.length df)%nat) positions.

(** A sampler used to run the model on examples: the first [n] rows. *)
Definition head_sample (n seed : Z) (df : list raw_row) : exn + list raw_row :=
  if (n <? 0)%Z then inl ValueError
  else if (len df <? n)%Z then inl ValueError
  else inr (firstn (Z.to_nat n) df).

End Cleaning.

(** ** Stage 2: [02_sentiment_analysis.py] *)

Module Sentiment.

(** [categorize_sentiment(score)], on the compound score. *)
Definition categorize_sentiment (score : Q) : string :=
  if Qle_bool 0.05 score then "Positive"
  else if Qle_bool score (- 0.05) then "Negative"
  else "Neutral".

End Sentiment.

(** ** Number formatting of f-strings *)

Module PyFormat.

(** [str(n)] for a natural number *)
Definition str_nat (n : nat) : string :=
  NilEmpty.string_of_uint (Nat.to_uint n).

(** The thousands separators of [f"{n:,}"], added to a digit string. *)
Fixpoint commas (digits : string) : string :=
  match digits with
  | EmptyString => EmptyString
  | String c t =>
      String c
        (if ((0 <? String.length t) && (String.length t mod 3 =? 0))%nat
         then String "," (commas t)
         else commas t)
  end.

Definition format_thousands (n : nat) : string := commas (str_nat n).

(** Rounding of [num / den] ([den > 0], [num >= 0]) to the nearest
    integer, a tie going to the even neighbour. *)
Definition round_half_even (num den : Z) : Z :=
  let fl := (num / den)%Z in
  let r := (num mod den)%Z in
  match (2 * r ?= den)%Z with
  | Lt => fl
  | Gt => (fl + 1)%Z
  | Eq => if Z.even fl then fl else (fl + 1)%Z
  end.

Fixpoint zeros (n : nat) : string :=
  match n with
  | O => EmptyString
  | S m => String "0" (zeros m)
  end.

Definition zero_pad (width : nat) (s : string) : string :=
  zeros (width - String.length s) ++ s.

(** [f"{x:.<digits>f}"] for a rational [x]. *)
Definition format_fixed (digits : nat) (x : Q) : string :=
  let scale := (10 ^ Z.of_nat digits)%Z in
  let n := round_half_even (Z.abs (Qnum x) * scale) (Zpos (Qden x)) in
  let sign := if (Qnum x <? 0)%Z then "-" else "" in
  let whole := str_nat (Z.to_nat (n / scale)) in
  match digits with
  | O => sign ++ whole
  | _ => sign ++ whole ++ "."
         ++ zero_pad digits (str_nat (Z.to_nat (n mod scale)))
  end.

(** The same for a float that may be NaN ([None]). *)
Definition format_fixed_nan (digits : nat) (x : option Q) : string :=
  match x with
  | Some q => format_fixed digits q
  | None => "nan"
  end.

End PyFormat.

(** ** Python floats *)

(** A finite [float] (IEEE 754 binary64) is represented by the rational
    number it denotes; the result of an operation is the exact result
    rounded to 53 significant bits, ties to even.  The exponent range is
    not represented: the quantities below are quotients of counts of rows
    and their products with 100, far from overflow and underflow. *)
Module Binary64.
Import PyFormat.

(** Numerator and denominator of [n / d] divided by [2 ^ e]. *)
Definition scaled_num (e n : Z) : Z :=
  if (0 <=? e)%Z then n else (n * 2 ^ (- e))%Z.

Definition scaled_den (e d : Z) : Z :=
  if (0 <=? e)%Z then (d * 2 ^ e)%Z else d.

(** For [n, d > 0] the exponent [k] with [2 ^ k <= n / d < 2 ^ (k + 1)]. *)
Definition ilog2 (n d : Z) : Z :=
  let k := (Z.log2 n - Z.log2 d)%Z in
  if (scaled_den k d <=? scaled_num k n)%Z then k else (k - 1)%Z.

(** Rounding of [n / d], [n, d > 0]: the significand is [n / d / 2 ^ e]
    rounded to an integer, where [e] puts it between [2 ^ 52] and
    [2 ^ 53]. *)
Definition round_pos (n d : Z) : Q :=
  let e := (ilog2 n d - 52)%Z in
  let m := round_half_even (scaled_num e n) (scaled_den e d) in
  if (0 <=? e)%Z then inject_Z (m * 2 ^ e)
  else Qmake m (Z.to_pos (2 ^ (- e))).

Definition round (x : Q) : Q :=
  match Qnum x with
  | Z0 => 0%Q
  | Zpos n => round_pos (Zpos n) (Zpos (Qden x))
  | Zneg n => (- round_pos (Zpos n) (Zpos (Qden x)))%Q
  end.

(** The largest relative error of one rounding, [2 ^ -53]. *)
Definition unit_roundoff : Q := 1 # 9007199254740992.

(** [x / y] and [x * y] on floats; [x / y] is also the true division of
    two integers, which Python rounds once. *)
Definition div (x y : Q) : Q := round (x / y)%Q.
Definition mul (x y : Q) : Q := round (x * y)%Q.

End Binary64.

(** ** Stage 3: [03_ai_insights.py] *)

Module Insights.
Import PyStr PyFormat.

Definition newline : string := String (ascii_of_nat 10) EmptyString.

(** A row of the frame read from [reviews_with_sentiment.csv]; the cell
    [ai_category] has a meaning only when the frame has that column. *)
Record review : Type := Review {
  Text : string;
  Score : Z;
  sentiment_category : string;
  ai_category : string
}.

Record frame : Type := Frame {
  columns : list string;
  records : list review
}.

(** *** Generic helpers: stable descending sort, [value_counts] *)

Section Sorting.
Context {A : Type}.
(** [le_key y x]: the sort key of [y] is at most that of [x]. *)
Variable le_key : A -> A -> bool.

(** [x] is put in front of the first element whose key does not exceed
    its own, so it stays ahead of later elements with an equal key. *)
Fixpoint insert_desc (x : A) (l : list A) : list A :=
  match l with
  | [] => [x]
  | y :: rest => if le_key y x then x :: l else y :: insert_desc x rest
  end.

(** [sorted(l, key=..., reverse=True)]: descending, stable. *)
Definition sorted_desc (l : list A) : list A := fold_right insert_desc [] l.

End Sorting.

(** [topic_counts[topic] += 1] on a dict kept as an association list in
    insertion order. *)
Fixpoint increment (topic : string) (counts : list (string * nat))
  : list (string * nat) :=
  match counts with
  | [] => []
  | (t, c) :: rest =>
      if String.eqb t topic then (t, S c) :: rest
      else (t, c) :: increment topic rest
  end.

(** [Series.value_counts()]: the distinct values with their number of
    occurrences, most frequent first; values of equal count stay in the
    order of their first occurrence. *)
Fixpoint tally (value : string) (counts : list (string * nat))
  : list (string * nat) :=
  match counts with
  | [] => [(value, 1)]
  | (v, c) :: rest =>
      if String.eqb v value then (v, S c) :: rest
      else (v, c) :: tally value rest
  end.

Definition value_counts (values : list string) : list (string * nat) :=
  sorted_desc (fun y x => (snd y <=? snd x)%nat)
    (fold_left (fun counts v => tally v counts) values []).

(** *** [extract_topics_rule_based] *)

Definition topic_keywords : list (string * list string) :=
  [ ("Product Quality",
     ["quality"; "defective"; "broke"; "broken"; "damaged"; "poor"; "cheap";
      "terrible"; "awful"; "bad"]);
    ("Shipping/Delivery",
     ["shipping"; "delivery"; "arrived"; "package"; "late"; "delayed";
      "never received"; "lost"; "weeks"]);
    ("Customer Service",
     ["customer service"; "support"; "refund"; "return"; "response";
      "contact"; "help"; "customer"]);
    ("Price/Value",
     ["price"; "expensive"; "overpriced"; "cost"; "value"; "money"; "worth";
      "waste"]);
    ("Packaging",
     ["packaging"; "box"; "wrapped"; "container"; "sealed"; "package";
      "crushed"]);
    ("Taste/Flavor",
     ["taste"; "flavor"; "bland"; "bitter"; "sweet"; "salty"; "disgusting";
      "delicious"; "stale"]) ].

(** The body of the outer loop: one text, all topics. *)
Definition count_text (topic_counts : list (string * nat)) (text : string)
  : list (string * nat) :=
  let text_lower := lower text in
  fold_left
    (fun counts '(topic, keywords) =>
       if any_in keywords text_lower then increment topic counts else counts)
    topic_keywords topic_counts.

Definition count_topics (texts : list string) : list (string * nat) :=
  fold_left count_text texts (map (fun tk => (fst tk, 0%nat)) topic_keywords).

(** [count / total * 100] *)
Definition percentage (count total : nat) : Q :=
  Binary64.mul
    (Binary64.div (inject_Z (Z.of_nat count)) (inject_Z (Z.of_nat total)))
    100.

Definition topic_percentages (total : nat) (topic_counts : list (string * nat))
  : list (string * Q) :=
  map (fun tc => (fst tc, percentage (snd tc) total))
      (filter (fun tc => (0 <? snd tc)%nat) topic_counts).

(** [sorted(topic_percentages.items(), key=lambda x: x[1], reverse=True)[:5]] *)
Definition top_topics (texts : list string) : list (string * Q) :=
  let topic_counts := count_topics texts in
  let total := List.length texts in
  firstn 5
    (sorted_desc (fun y x => Qle_bool (snd y) (snd x))
       (topic_percentages total topic_counts)).

(** The five lines appended for the [i]-th topic. *)
Definition topic_lines (i : nat) (entry : string * Q) : list string :=
  let (topic, pct) := entry in
  [ "TOPIC " ++ str_nat i ++ ": " ++ topic;
    "Description: Predominantly negative mentions related to " ++ lower topic;
    "Sentiment: Negative";
    "Prevalence: " ++ format_fixed 1 pct ++ "%";
    "" ].

(** [enumerate(entries, start)] followed by the loop body *)
Fixpoint report_lines (start : nat) (entries : list (string * Q))
  : list string :=
  match entries with
  | [] => []
  | e :: rest => (topic_lines start e ++ report_lines (S start) rest)%list
  end.

(** [df_negative] enters through its [Text] column. *)
Definition extract_topics_rule_based (df_negative : list review) : string :=
  join newline (report_lines 1 (top_topics (map Text df_negative))).

(** *** [categorize_review_rule_based] *)

Definition shipping_words : list string :=
  ["shipping"; "delivery"; "arrived"; "package"; "late"; "delayed";
   "never received"].
Definition service_words : list string :=
  ["customer service"; "support"; "refund"; "return"; "customer"].
Definition quality_words : list string :=
  ["quality"; "defective"; "broke"; "broken"; "damaged"; "poor"].
Definition taste_words : list string :=
  ["taste"; "flavor"; "bland"; "bitter"; "delicious"; "disgusting"; "stale"].
Definition price_words : list string :=
  ["price"; "expensive"; "overpriced"; "cost"; "waste"; "money"].
Definition packaging_words : list string :=
  ["packaging"; "box"; "wrapped"; "crushed"].

Definition categorize_review_rule_based (review_text : string) : string :=
  let text_lower := lower review_text in
  if any_in shipping_words text_lower then "Shipping/Delivery"
  else if any_in service_words text_lower then "Customer Service"
  else if any_in quality_words text_lower then "Product Quality"
  else if any_in taste_words text_lower then "Taste/Flavor"
  else if any_in price_words text_lower then "Price/Value"
  else if any_in packaging_words text_lower then "Packaging"
  else "Other".

(** The chain read as a table: the branches in the order they are tried. *)
Definition category_rules : list (string * list string) :=
  [ ("Shipping/Delivery", shipping_words);
    ("Customer Service", service_words);
    ("Product Quality", quality_words);
    ("Taste/Flavor", taste_words);
    ("Price/Value", price_words);
    ("Packaging", packaging_words) ].

Definition topic_labels : list string :=
  (map fst category_rules ++ ["Other"])%list.

(** The first rule of a table with a keyword in the text, [Other] if none. *)
Fixpoint first_match (rules : list (string * list string)) (text_lower : string)
  : string :=
  match rules with
  | [] => "Other"
  | (label, words) :: rest =>
      if any_in words text_lower then label else first_match rest text_lower
  end.

(** *** [generate_executive_summary_template] *)

(** Selecting a column the frame does not have raises [KeyError]. *)
Inductive exn : Type :=
| KeyError (column : string).

Definition has_column (name : string) (df : frame) : bool :=
  existsb (String.eqb name) (columns df).

Definition count_of (value : string) (values : list string) : nat :=
  List.length (filter (String.eqb value) values).

(** [series.value_counts(normalize=True).get(value, 0)]: the count
    divided by the number of values, 0 for a value that does not occur. *)
Definition share (value : string) (values : list string) : Q :=
  if (count_of value values =? 0)%nat then 0%Q
  else Binary64.div (inject_Z (Z.of_nat (count_of value values)))
                    (inject_Z (Z.of_nat (List.length values))).

(** [df['Score'].mean()]: NaN on an empty column, else the sum of the
    scores divided by their number.  The sum of integer ratings is exact
    as a float (as long as it stays below [2 ^ 53]); the division rounds. *)
Definition mean (scores : list Z) : option Q :=
  match scores with
  | [] => None
  | _ => Some (Binary64.div (inject_Z (fold_right Z.add 0%Z scores))
                            (inject_Z (Z.of_nat (List.length scores))))
  end.

Definition fallback_issues : string :=
  "product quality, shipping, and customer service".

Definition issue_item (n_negative : nat) (entry : string * nat) : string :=
  let (cat, count) := entry in
  let pct :=
    Binary64.mul
      (Binary64.div (inject_Z (Z.of_nat count))
                    (inject_Z (Z.of_nat n_negative)))
      100 in
  cat ++ " (" ++ format_fixed 0 pct ++ "% of negative reviews)".

Definition issues_text (df : frame) : string :=
  if has_column "ai_category" df then
    let neg_df :=
      filter (fun r => String.eqb (sentiment_category r) "Negative")
             (records df) in
    if (0 <? List.length neg_df)%nat then
      let top_issues := firstn 3 (value_counts (map ai_category neg_df)) in
      join ", " (map (issue_item (List.length neg_df)) top_issues)
    else fallback_issues
  else fallback_issues.

Definition para1 (df : frame) : string :=
  let total_reviews := List.length (records df) in
  let sentiments := map sentiment_category (records df) in
  let avg_rating := mean (map Score (records df)) in
  let pos_pct := Binary64.mul (share "Positive" sentiments) 100 in
  let neg_pct := Binary64.mul (share "Negative" sentiments) 100 in
  let neu_pct := Binary64.mul (share "Neutral" sentiments) 100 in
  "Analysis of " ++ format_thousands total_reviews
  ++ " customer reviews reveals a rating average of "
  ++ format_fixed_nan 2 avg_rating
  ++ " out of 5 stars, with " ++ format_fixed 0 pos_pct
  ++ "% expressing positive sentiment, " ++ format_fixed 0 neg_pct
  ++ "% negative, and " ++ format_fixed 0 neu_pct
  ++ "% neutral. This distribution suggests that while the majority of customers are satisfied, there is a significant segment experiencing issues that require attention.".

Definition para2 (issues : string) : string :=
  "The primary concerns identified in negative feedback center around "
  ++ issues
  ++ ". These recurring themes represent the most critical areas for improvement and offer clear opportunities to enhance customer satisfaction. Addressing these specific pain points could potentially convert a substantial portion of dissatisfied customers into brand advocates.".

Definition para3 : string :=
  "Moving forward, we recommend prioritizing improvements in the areas with highest negative mention rates. Implementing targeted solutions for these top issues could result in measurable improvements to both customer satisfaction scores and repeat purchase rates. Regular monitoring of review sentiment will help track the effectiveness of any corrective measures implemented.".

(** The function has no [raise] and divides by [len(neg_df)] only under
    the test [len(neg_df) > 0]; the one way not to return is the lookup of
    the columns [sentiment_category] and [Score]. *)
Definition generate_executive_summary_template (df : frame) : exn + string :=
  if negb (has_column "sentiment_category" df)
  then inl (KeyError "sentiment_category")
  else if negb (has_column "Score" df)
  then inl (KeyError "Score")
  else inr (para1 df ++ newline ++ newline ++ para2 (issues_text df)
            ++ newline ++ newline ++ para3).

(** *** Notions used to state the properties *)

(** The keywords of both tables. *)
Definition every_keyword : list string :=
  (flat_map snd category_rules ++ flat_map snd topic_keywords)%list.

(** The number of texts with at least one keyword of a set. *)
Definition matching (keywords : list string) (texts : list string) : nat :=
  List.length (filter (fun text => any_in keywords (lower text)) texts).

(** The topic table with a count attached to every topic. *)
Definition with_counts (f : list string -> nat) : list (string * nat) :=
  map (fun tk => (fst tk, f (snd tk))) topic_keywords.

End Insights.

(** ** Sample data *)

Definition coffee_upper : Cleaning.raw_row :=
  Cleaning.RawRow (Some "Great coffee, would buy it again!") (Some 5%Z) None.
Definition coffee_lower : Cleaning.raw_row :=
  Cleaning.RawRow (Some "great coffee, would buy it again!  ") (Some 4%Z) None.
Definition tea_short : Cleaning.raw_row :=
  Cleaning.RawRow (Some "nice tea") (Some 3%Z) (Some 1300000000%Z).

Definition negative_review (text : string) : Insights.review :=
  Insights.Review text 1%Z "Negative" "Other".

Definition three_complaints : list Insights.review :=
  [ negative_review "It was LOST in the mail and the box was bad";
    negative_review "Bad quality, really";
    negative_review "Nothing to say" ].

Definition empty_frame : Insights.frame :=
  Insights.Frame ["Text"; "Score"; "sentiment_category"; "ai_category"] [].

Definition missing_score : Cleaning.raw_row :=
  Cleaning.RawRow (Some "A long review whose score cell is empty") None None.

Definition scored (sentiment : string) (score : Z) : Insights.review :=
  Insights.Review "" score sentiment "Other".

(** Ten reviews: six Positive, three Negative, one Neutral, mean 4.0. *)
Definition ten_reviews : Insights.frame :=
  Insights.Frame ["Text"; "Score"; "sentiment_category"]
    (repeat (scored "Positive" 5%Z) 6 ++ repeat (scored "Negative" 2%Z) 3
     ++ [scored "Neutral" 4%Z])%list.

(** ** Further parts of the three stages *)

(** [kept] is [l] with some elements left out, the others in their order. *)
Inductive subseq {A : Type} : list A -> list A -> Prop :=
| subseq_nil : subseq [] []
| subseq_skip (x : A) (kept l : list A) : subseq kept l -> subseq kept (x :: l)
| subseq_keep (x : A) (kept l : list A) :
    subseq kept l -> subseq (x :: kept) (x :: l).

Module CleaningReport.
Import PyStr Cleaning.

(** The three counts [clean_reviews] prints, each computed as
    [initial_count - len(df_clean)] around one step, and the size of the
    final frame (lines 34-51 and 66). *)
Record removal_counts : Type := RemovalCounts {
  removed_missing   : Z;
  removed_duplicate : Z;
  removed_short     : Z;
  final_count       : Z
}.

Definition count_removals (df_sample : list raw_row) : removal_counts :=
  let initial_count := len df_sample in
  let df_clean := dropna df_sample in
  let removed_missing := (initial_count - len df_clean)%Z in
  let initial_count := len df_clean in
  let df_clean := drop_duplicates df_clean in
  let removed_duplicate := (initial_count - len df_clean)%Z in
  let df_clean := str_strip (str_lower df_clean) in
  let initial_count := len df_clean in
  let df_clean := filter long_enough df_clean in
  let removed_short := (initial_count - len df_clean)%Z in
  RemovalCounts removed_missing removed_duplicate removed_short (len df_clean).

(** How a returned row relates to the raw row it was made from. *)
Definition cleaned_from (raw : raw_row) (r : clean_row) : Prop :=
  exists t,
    raw_Text raw = Some t
    /\ clean_Text r = strip (lower t)
    /\ raw_Score raw = Some (Score (base r))
    /\ raw_Time raw = Time (base r).

Definition normalize (t : string) : string := strip (lower t).

End CleaningReport.

Module SentimentReport.
Import PyStr Sentiment Insights.

(** The count stored for [value] in a table of counts, 0 when absent. *)
Fixpoint lookup_count (value : string) (counts : list (string * nat)) : nat :=
  match counts with
  | [] => 0
  | (v, c) :: rest =>
      if String.eqb v value then c else lookup_count value rest
  end.

(** The order [value_counts] and [most_common] sort by. *)
Definition by_count (y x : string * nat) : bool := (snd y <=? snd x)%nat.

(** [Counter(items)], before any sorting. *)
Definition counter (items : list string) : list (string * nat) :=
  fold_left (fun counts v => tally v counts) items [].

(** Position of a label on the scale Negative < Neutral < Positive. *)
Definition sentiment_rank (label : string) : nat :=
  if String.eqb label "Positive" then 2
  else if String.eqb label "Neutral" then 1
  else 0.

(** The label of the opposite score. *)
Definition mirror (label : string) : string :=
  if String.eqb label "Positive" then "Negative"
  else if String.eqb label "Negative" then "Positive"
  else label.

(** Lines 62 and 68 of [analyze_sentiment]:
    [df['vader_compound'].apply(categorize_sentiment)] and its
    [value_counts()]. *)
Definition sentiment_column (vader_compound : list Q) : list string :=
  map categorize_sentiment vader_compound.

Definition sentiment_dist (vader_compound : list Q) : list (string * nat) :=
  value_counts (sentiment_column vader_compound).

(** *** The word table of the negative reviews (lines 78-99) *)

Definition is_az (c : ascii) : bool :=
  let n := nat_of_ascii c in ((97 <=? n) && (n <=? 122))%nat.

(** The class [\w] of a [str] pattern, on code points below 256: the
    underscore and every character that is alphabetic or numeric, which
    besides [0-9A-Za-z] are U+00AA, U+00B2, U+00B3, U+00B5, U+00B9, U+00BA,
    U+00BC..U+00BE, U+00C0..U+00D6, U+00D8..U+00F6 and U+00F8..U+00FF. *)
Definition is_word_char (c : ascii) : bool :=
  let n := nat_of_ascii c in
  (((48 <=? n) && (n <=? 57)) || ((65 <=? n) && (n <=? 90)) || (n =? 95)
   || ((97 <=? n) && (n <=? 122))
   || (n =? 170) || (n =? 178) || (n =? 179) || (n =? 181) || (n =? 185)
   || (n =? 186) || ((188 <=? n) && (n <=? 190))
   || ((192 <=? n) && (n <=? 214)) || ((216 <=? n) && (n <=? 246))
   || (248 <=? n))%nat.

Definition flush (run : string) : list string :=
  match run with
  | EmptyString => []
  | _ => [run]
  end.

(** The maximal runs of [\w] characters of [s], in order; [run] is the
    run in progress. *)
Fixpoint word_runs (run : string) (s : string) : list string :=
  match s with
  | EmptyString => flush run
  | String c t =>
      if is_word_char c then word_runs (run ++ String c EmptyString) t
      else (flush run ++ word_runs EmptyString t)%list
  end.

Fixpoint all_az (s : string) : bool :=
  match s with
  | EmptyString => true
  | String c t => is_az c && all_az t
  end.

(** [re.findall(r'\b[a-z]{4,}\b', text)].  A match starts and ends at a
    word boundary and holds [\w] characters only, so it is a maximal run
    of [\w] characters; the pattern accepts the runs of four or more
    letters [a-z]. *)
Definition findall_words (text : string) : list string :=
  filter (fun w => (4 <=? String.length w)%nat && all_az w)
         (word_runs EmptyString text).

Definition stop_words : list string :=
  [ "the"; "a"; "an"; "and"; "or"; "but"; "in"; "on"; "at"; "to"; "for";
    "of"; "is"; "was"; "are"; "were"; "been"; "be"; "have"; "has"; "had";
    "do"; "does"; "did"; "will"; "would"; "could"; "should"; "it"; "this";
    "that"; "these"; "those"; "i"; "you"; "he"; "she"; "we"; "they" ].

(** [Counter(items).most_common(n)]: the counts in order of first
    occurrence, sorted by descending count (stable), cut to [n]. *)
Definition most_common (n : nat) (items : list string) : list (string * nat) :=
  firstn n
    (sorted_desc (fun y x => (snd y <=? snd x)%nat)
       (fold_left (fun counts v => tally v counts) items [])).

Definition filter_stop_words (words : list string) : list string :=
  filter (fun w => negb (existsb (String.eqb w) stop_words)) words.

Definition top_negative_words (negative_reviews : list string)
  : list (string * nat) :=
  let all_text := join " " negative_reviews in
  let words := findall_words all_text in
  let words_filtered := filter_stop_words words in
  most_common 20 words_filtered.

End SentimentReport.

Module InsightsRun.
Import PyStr PyFormat Insights.

(** Position of a label in the order the categorizer tries the topics,
    [Other] last. *)
Fixpoint index_of (label : string) (labels : list string) : nat :=
  match labels with
  | [] => 0
  | l :: rest => if String.eqb l label then 0 else S (index_of label rest)
  end.

Definition priority (label : string) : nat := index_of label topic_labels.

Definition is_negative (r : review) : bool :=
  String.eqb (sentiment_category r) "Negative".

(** [neg_df['ai_category'].value_counts().head(3)] of the summary. *)
Definition top_issues (df : frame) : list (string * nat) :=
  firstn 3 (value_counts (map ai_category (filter is_negative (records df)))).

(** [df['ai_category'] = df['Text'].apply(categorize_review_rule_based)]:
    the column is overwritten when present and appended otherwise. *)
Definition categorize_record (r : review) : review :=
  Review (Text r) (Score r) (sentiment_category r)
         (categorize_review_rule_based (Text r)).

Definition assign_ai_category (df : frame) : frame :=
  Frame (if has_column "ai_category" df then columns df
         else (columns df ++ ["ai_category"])%list)
        (map categorize_record (records df)).

(** What a completed run leaves: the topic report when one was written,
    the summary, and the frame returned. *)
Record outputs : Type := Outputs {
  topics_analysis   : option string;
  executive_summary : string;
  final             : frame
}.

(** A row as [pd.read_csv] gives it: the [Text] cell is [None] when it
    does not hold a string (an empty cell is read as NaN, a cell of digits
    as a number). *)
Record read_review : Type := ReadReview {
  read_Text : option string;
  read_Score : Z;
  read_sentiment_category : string;
  read_ai_category : string
}.

Record read_frame : Type := ReadFrame {
  read_columns : list string;
  read_records : list read_review
}.

(** What stops a run: the lookup of a missing column, or [.lower()] on a
    [Text] cell that is not a string. *)
Inductive run_error : Type :=
| RunKeyError (column : string)
| RunAttributeError.

(** The rows with their texts, when every [Text] cell is a string. *)
Fixpoint string_rows (rows : list read_review) : option (list review) :=
  match rows with
  | [] => Some []
  | r :: rest =>
      match read_Text r, string_rows rest with
      | Some t, Some l =>
          Some (Review t (read_Score r) (read_sentiment_category r)
                       (read_ai_category r) :: l)
      | _, _ => None
      end
  end.

Definition read_has_column (name : string) (df : read_frame) : bool :=
  existsb (String.eqb name) (read_columns df).

(** [run_ai_analysis_free], from the frame read to the frame returned.
    The column [sentiment_category] is looked up first (line 133), then
    [Text] (line 29 or 154); every text is lowercased by the categorizer
    (line 63), the Negative ones before that by the topic report (line
    30); the summary looks up [Score] last (line 88). *)
Definition run_ai_analysis_free (df : read_frame) : run_error + outputs :=
  if negb (read_has_column "sentiment_category" df)
  then inl (RunKeyError "sentiment_category")
  else if negb (read_has_column "Text" df) then inl (RunKeyError "Text")
  else
    match string_rows (read_records df) with
    | None => inl RunAttributeError
    | Some rows =>
        let df := Frame (read_columns df) rows in
        let negative_df := filter is_negative (records df) in
        let topics :=
          if (0 <? List.length negative_df)%nat
          then Some (extract_topics_rule_based negative_df)
          else None in
        let df := assign_ai_category df in
        match generate_executive_summary_template df with
        | inl (KeyError column) => inl (RunKeyError column)
        | inr summary => inr (Outputs topics summary df)
        end
    end.

(** A frame of string texts, as it is read. *)
Definition as_read (df : frame) : read_frame :=
  ReadFrame (columns df)
    (map (fun r => ReadReview (Some (Text r)) (Score r) (sentiment_category r)
                              (ai_category r))
         (records df)).

End InsightsRun.

Definition two_negative_texts : list string :=
  [ "the coffee tasted awful"; "awful coffee, would not order again" ].

(** The same raw text as [coffee_upper], with another score. *)
Definition coffee_again : Cleaning.raw_row :=
  Cleaning.RawRow (Some "Great coffee, would buy it again!") (Some 1%Z) None.

(** A sampler that draws the last row first: the rows at the positions
    [len - 1, len - 2, ...], [n] of them. *)
Definition last_first_sample (n seed : Z) (df : list Cleaning.raw_row)
  : Cleaning.exn + list Cleaning.raw_row :=
  if (n <? 0)%Z then inl Cleaning.ValueError
  else if (Cleaning.len df <? n)%Z then inl Cleaning.ValueError
  else inr (firstn (Z.to_nat n) (rev df)).

(** The whole number that [f"{x:.0f}"] prints for a float [x >= 0]. *)
Definition printed_whole (x : Q) : Z :=
  PyFormat.round_half_even (Z.abs (Qnum x)) (Zpos (Qden x)).

(** A row whose text cell is empty in the file. *)
Definition no_text_row : InsightsRun.read_review :=
  InsightsRun.ReadReview None 3%Z "Neutral" "Other".

(** * Properties *)

(** ** Facts about the string operations *)

Section PyStrFacts.
Import PyStr.

Lemma lower_char_idem (c : ascii) : lower_char (lower_char c) = lower_char c.
Proof.
  destruct c as [[] [] [] [] [] [] [] []]; vm_compute; reflexivity.
Qed.

Lemma lower_idem (s : string) : lower (lower s) = lower s.
Proof.
  induction s as [|c t IH]; simpl; [reflexivity|].
  now rewrite lower_char_idem, IH.
Qed.

Lemma lower_length (s : string) : String.length (lower s) = String.length s.
Proof. induction s; simpl; congruence. Qed.

Lemma all_lower_spec (s : string) : all_lower s = true <-> lower s = s.
Proof.
  induction s as [|c t IH]; simpl; [tauto|].
  rewrite andb_true_iff, Ascii.eqb_eq, IH. split.
  - intros [-> ->]. reflexivity.
  - intros H. injection H. tauto.
Qed.

Lemma all_lower_lower (s : string) : all_lower (lower s) = true.
Proof. apply all_lower_spec, lower_idem. Qed.

Lemma all_lower_lstrip (s : string) :
  all_lower s = true -> all_lower (lstrip s) = true.
Proof.
  induction s as [|c t IH]; simpl; [trivial|].
  intros H. destruct (isspace c); simpl; [|exact H].
  apply andb_true_iff in H. tauto.
Qed.

Lemma all_lower_rstrip (s : string) :
  all_lower s = true -> all_lower (rstrip s) = true.
Proof.
  induction s as [|c t IH]; simpl; [trivial|].
  intros H. apply andb_true_iff in H. destruct H as [Hc Ht].
  specialize (IH Ht).
  destruct (rstrip t) as [|d r].
  - destruct (isspace c); simpl; [reflexivity|]. now rewrite Hc.
  - simpl in *. now rewrite Hc, IH.
Qed.

Lemma all_lower_strip (s : string) :
  all_lower s = true -> all_lower (strip s) = true.
Proof. intros H. now apply all_lower_rstrip, all_lower_lstrip. Qed.

Lemma lstrip_no_lead (s : string) : starts_with_space (lstrip s) = false.
Proof.
  induction s as [|c t IH]; simpl; [reflexivity|].
  destruct (isspace c) eqn:E; simpl; [exact IH | exact E].
Qed.

Lemma rstrip_no_trail (s : string) : ends_with_space (rstrip s) = false.
Proof.
  induction s as [|c t IH]; simpl; [reflexivity|].
  destruct (rstrip t) as [|d r] eqn:E.
  - destruct (isspace c) eqn:Ec; simpl; [reflexivity | exact Ec].
  - exact IH.
Qed.

Lemma rstrip_keeps_lead (s : string) :
  starts_with_space s = false -> starts_with_space (rstrip s) = false.
Proof.
  destruct s as [|c t]; simpl; [trivial|].
  intros H. destruct (rstrip t); [rewrite H|]; simpl; trivial.
Qed.

Lemma strip_no_lead (s : string) : starts_with_space (strip s) = false.
Proof. apply rstrip_keeps_lead, lstrip_no_lead. Qed.

Lemma strip_no_trail (s : string) : ends_with_space (strip s) = false.
Proof. apply rstrip_no_trail. Qed.

(** [strip] removes a run of whitespace at each end and nothing else. *)
Lemma lstrip_decomp (s : string) :
  exists a, s = a ++ lstrip s /\ all_space a = true.
Proof.
  induction s as [|c t [a [E Ha]]]; simpl; [now exists ""|].
  destruct (isspace c) eqn:Ec.
  - exists (String c a). simpl. rewrite Ec, Ha. now rewrite <- E.
  - now exists "".
Qed.

Lemma rstrip_decomp (s : string) :
  exists b, s = rstrip s ++ b /\ all_space b = true.
Proof.
  induction s as [|c t [b [E Hb]]]; simpl; [now exists ""|].
  destruct (rstrip t) as [|d r].
  - simpl in E. subst t. destruct (isspace c) eqn:Ec.
    + exists (String c b). simpl. now rewrite Ec, Hb.
    + now exists b.
  - exists b. simpl in *. now rewrite <- E.
Qed.

Lemma strip_decomp (s : string) :
  exists a b,
    s = a ++ strip s ++ b /\ all_space a = true /\ all_space b = true.
Proof.
  destruct (lstrip_decomp s) as [a [Ea Ha]].
  destruct (rstrip_decomp (lstrip s)) as [b [Eb Hb]].
  exists a, b. unfold strip. now rewrite <- Eb, <- Ea.
Qed.

(** [contains] is substring containment. *)
Lemma prefix_app (kw s : string) :
  prefix kw s = true <-> exists b, s = kw ++ b.
Proof.
  revert s. induction kw as [|k kw IH]; intros s; simpl.
  - split; [intros _; now exists s | destruct s; trivial].
  - destruct s as [|c s]; simpl.
    + split; [discriminate | intros [b H]; discriminate].
    + destruct (ascii_dec k c) as [->|Hne].
      * rewrite IH. split; intros [b H]; exists b; [now subst | now injection H].
      * split; [discriminate | intros [b H]; injection H; congruence].
Qed.

Lemma contains_spec (kw s : string) :
  contains kw s = true <-> exists a b, s = a ++ kw ++ b.
Proof.
  induction s as [|c t IH]; cbn [contains]; rewrite orb_true_iff.
  - split.
    + intros [H|H]; [|discriminate].
      apply prefix_app in H. destruct H as [b H]. now exists "", b.
    + intros [a [b H]]. left. apply prefix_app.
      destruct a; simpl in H; [now exists b | discriminate].
  - rewrite IH, prefix_app. split.
    + intros [[b H]|[a [b H]]]; [now exists "", b|].
      exists (String c a), b. simpl. now rewrite H.
    + intros [a [b H]]. destruct a as [|d a]; simpl in H.
      * left. now exists b.
      * right. injection H as _ H. now exists a, b.
Qed.

End PyStrFacts.

(** ** Number formatting *)

Section FormatFacts.
Import PyFormat.

(** [round_half_even] returns a nearest integer. *)
Lemma round_half_even_nearest (num den : Z) :
  (0 < den)%Z ->
  (Z.abs (2 * (num - round_half_even num den * den)) <= den)%Z.
Proof.
  intros Hd. unfold round_half_even.
  pose proof (Z.div_mod num den ltac:(lia)) as E.
  pose proof (Z.mod_pos_bound num den Hd) as B.
  destruct (Z.compare_spec (2 * (num mod den)) den) as [H|H|H];
    [destruct (Z.even (num / den))| |]; nia.
Qed.

Example format_fixed_samples :
  format_fixed 1 (200 # 3) = "66.7"
  /\ format_fixed 1 (1225 # 100) = "12.2"
  /\ format_fixed 0 (5 # 2) = "2"
  /\ format_fixed 2 (4 # 1) = "4.00"
  /\ format_thousands 4321 = "4,321".
Proof. repeat split; vm_compute; reflexivity. Qed.

End FormatFacts.

(** ** Rounding to binary64 *)

Section Binary64Facts.
Import PyFormat Binary64.
Open Scope Z_scope.

Lemma round_half_even_le (num den bound : Z) :
  0 < den -> num <= bound * den -> round_half_even num den <= bound.
Proof.
  intros Hd H. pose proof (round_half_even_nearest num den Hd) as Hn.
  apply Z.abs_le in Hn. nia.
Qed.

Lemma round_half_even_ge (num den bound : Z) :
  0 < den -> bound * den <= num -> bound <= round_half_even num den.
Proof.
  intros Hd H. pose proof (round_half_even_nearest num den Hd) as Hn.
  apply Z.abs_le in Hn. nia.
Qed.

Lemma pow2_pos (e : Z) : 0 <= e -> 0 < 2 ^ e.
Proof. intros H. now apply Z.pow_pos_nonneg. Qed.

Lemma scaled_den_pos (e d : Z) : 0 < d -> 0 < scaled_den e d.
Proof.
  intros Hd. unfold scaled_den. destruct (Z.leb_spec 0 e) as [He|He];
    [|exact Hd].
  pose proof (pow2_pos e He). nia.
Qed.

(** Lowering the exponent by [j] doubles the scaled fraction [j] times. *)
Lemma scaled_shift (e j n d : Z) :
  0 <= j ->
  scaled_num e n * scaled_den (e + j) d
  = scaled_num (e + j) n * scaled_den e d * 2 ^ j.
Proof.
  intros Hj. unfold scaled_num, scaled_den.
  destruct (Z.leb_spec 0 e) as [He|He];
    destruct (Z.leb_spec 0 (e + j)) as [Hej|Hej]; try lia.
  - rewrite Z.pow_add_r by lia. ring.
  - replace j with (e + j + - e) at 2 by lia.
    rewrite (Z.pow_add_r 2 (e + j) (- e)) by lia. ring.
  - replace (- e) with (- (e + j) + j) by lia.
    rewrite (Z.pow_add_r 2 (- (e + j)) j) by lia. ring.
Qed.

Lemma ilog2_lower (n d : Z) :
  0 < n -> 0 < d -> scaled_den (ilog2 n d) d <= scaled_num (ilog2 n d) n.
Proof.
  intros Hn Hd. unfold ilog2.
  set (k := Z.log2 n - Z.log2 d).
  destruct (Z.leb_spec (scaled_den k d) (scaled_num k n)) as [H|_];
    [exact H|].
  pose proof (Z.log2_spec n Hn) as [Hn1 _].
  pose proof (Z.log2_spec d Hd) as [_ Hd2].
  pose proof (Z.log2_nonneg n) as Hln. pose proof (Z.log2_nonneg d) as Hld.
  unfold scaled_den, scaled_num.
  destruct (Z.leb_spec 0 (k - 1)) as [Hk|Hk].
  - assert (E : 2 ^ Z.log2 n = 2 ^ (Z.log2 d + 1) * 2 ^ (k - 1)).
    { rewrite <- Z.pow_add_r by lia. f_equal. unfold k. lia. }
    pose proof (pow2_pos (k - 1) Hk). nia.
  - assert (E : 2 ^ (Z.log2 d + 1) = 2 ^ Z.log2 n * 2 ^ (- (k - 1))).
    { rewrite <- Z.pow_add_r by lia. f_equal. unfold k. lia. }
    pose proof (pow2_pos (- (k - 1)) ltac:(lia)). nia.
Qed.

Lemma ilog2_upper (n d : Z) :
  0 < n -> 0 < d ->
  scaled_num (ilog2 n d + 1) n < scaled_den (ilog2 n d + 1) d.
Proof.
  intros Hn Hd. unfold ilog2.
  set (k := Z.log2 n - Z.log2 d).
  destruct (Z.leb_spec (scaled_den k d) (scaled_num k n)) as [_|H].
  - pose proof (Z.log2_spec n Hn) as [_ Hn2].
    pose proof (Z.log2_spec d Hd) as [Hd1 _].
    pose proof (Z.log2_nonneg n) as Hln. pose proof (Z.log2_nonneg d) as Hld.
    unfold scaled_den, scaled_num.
    destruct (Z.leb_spec 0 (k + 1)) as [Hk|Hk].
    + assert (E : 2 ^ (Z.log2 n + 1) = 2 ^ Z.log2 d * 2 ^ (k + 1)).
      { rewrite <- Z.pow_add_r by lia. f_equal. unfold k. lia. }
      pose proof (pow2_pos (k + 1) Hk). nia.
    + assert (E : 2 ^ Z.log2 d = 2 ^ (Z.log2 n + 1) * 2 ^ (- (k + 1))).
      { rewrite <- Z.pow_add_r by lia. f_equal. unfold k. lia. }
      pose proof (pow2_pos (- (k + 1)) ltac:(lia)). nia.
  - now replace (k - 1 + 1) with k by lia.
Qed.

(** The scaled fraction that is rounded lies between [2 ^ 52] and
    [2 ^ 53]: the result has 53 significant bits. *)
Lemma significand_range (n d : Z) :
  0 < n -> 0 < d ->
  2 ^ 52 * scaled_den (ilog2 n d - 52) d <= scaled_num (ilog2 n d - 52) n
  /\ scaled_num (ilog2 n d - 52) n < 2 ^ 53 * scaled_den (ilog2 n d - 52) d.
Proof.
  intros Hn Hd. set (e := ilog2 n d - 52).
  pose proof (ilog2_lower n d Hn Hd) as Hl.
  pose proof (ilog2_upper n d Hn Hd) as Hu.
  replace (ilog2 n d) with (e + 52) in Hl by (unfold e; lia).
  replace (ilog2 n d + 1) with (e + 53) in Hu by (unfold e; lia).
  pose proof (scaled_shift e 52 n d ltac:(lia)) as E52.
  pose proof (scaled_shift e 53 n d ltac:(lia)) as E53.
  pose proof (scaled_den_pos e d Hd) as P.
  pose proof (scaled_den_pos (e + 52) d Hd) as P52.
  pose proof (scaled_den_pos (e + 53) d Hd) as P53.
  split; nia.
Qed.

Lemma round_pos_significand (n d : Z) :
  0 < n -> 0 < d ->
  2 ^ 52 <= round_half_even (scaled_num (ilog2 n d - 52) n)
                            (scaled_den (ilog2 n d - 52) d)
         <= 2 ^ 53.
Proof.
  intros Hn Hd. destruct (significand_range n d Hn Hd) as [Hl Hu].
  pose proof (scaled_den_pos (ilog2 n d - 52) d Hd) as P.
  split; [apply round_half_even_ge | apply round_half_even_le]; lia.
Qed.

Lemma round_pos_positive (n d : Z) :
  0 < n -> 0 < d -> (0 < round_pos n d)%Q.
Proof.
  intros Hn Hd. unfold round_pos.
  pose proof (round_pos_significand n d Hn Hd) as [Hm _].
  set (e := ilog2 n d - 52) in *.
  set (m := round_half_even (scaled_num e n) (scaled_den e d)) in *.
  assert (Hm' : 0 < m) by (pose proof (pow2_pos 52 ltac:(lia)); lia).
  destruct (Z.leb_spec 0 e) as [He|He].
  - unfold Qlt. simpl. pose proof (pow2_pos e He). nia.
  - unfold Qlt. simpl. lia.
Qed.

(** Rounding does not cross an integer below [2 ^ 52]. *)
Lemma round_pos_le_int (n d bound : Z) :
  0 < n -> 0 < d -> bound < 2 ^ 52 -> n <= bound * d ->
  (round_pos n d <= inject_Z bound)%Q.
Proof.
  intros Hn Hd Hb H. unfold round_pos.
  destruct (significand_range n d Hn Hd) as [Hl _].
  pose proof (scaled_den_pos (ilog2 n d - 52) d Hd) as P.
  set (e := ilog2 n d - 52) in *.
  destruct (Z.leb_spec 0 e) as [He|He].
  - exfalso. unfold scaled_num, scaled_den in Hl.
    destruct (Z.leb_spec 0 e) as [_|?]; [|lia].
    pose proof (pow2_pos e He). nia.
  - unfold scaled_num, scaled_den in *.
    destruct (Z.leb_spec 0 e) as [?|_]; [lia|].
    pose proof (pow2_pos (- e) ltac:(lia)) as Pe.
    unfold Qle. cbn [Qnum Qden inject_Z].
    rewrite Z2Pos.id by exact Pe. rewrite Z.mul_1_r.
    apply round_half_even_le; [exact Hd | nia].
Qed.

Lemma round_positive (x : Q) : (0 < x)%Q -> (0 < Binary64.round x)%Q.
Proof.
  intros Hx. unfold Binary64.round. unfold Qlt in Hx. simpl in Hx.
  destruct (Qnum x) as [|n|n]; try lia.
  apply round_pos_positive; lia.
Qed.

Lemma round_le_int (x : Q) (bound : Z) :
  (0 < x)%Q -> bound < 2 ^ 52 -> (x <= inject_Z bound)%Q ->
  (Binary64.round x <= inject_Z bound)%Q.
Proof.
  intros Hx Hb H. unfold Binary64.round. unfold Qlt in Hx. simpl in Hx.
  unfold Qle in H. simpl in H.
  destruct (Qnum x) as [|n|n]; try lia.
  apply round_pos_le_int; lia.
Qed.

(** One rounding changes a positive number by at most the fraction
    [2 ^ -53] of it. *)
Lemma round_pos_error (n d : positive) :
  ((Zpos n # d) * (1 - unit_roundoff) <= round_pos (Zpos n) (Zpos d)
   /\ round_pos (Zpos n) (Zpos d) <= (Zpos n # d) * (1 + unit_roundoff))%Q.
Proof.
  unfold round_pos.
  destruct (significand_range (Zpos n) (Zpos d) ltac:(lia) ltac:(lia))
    as [Hl _].
  pose proof (scaled_den_pos (ilog2 (Zpos n) (Zpos d) - 52) (Zpos d)
                ltac:(lia)) as P.
  pose proof (round_half_even_nearest
                (scaled_num (ilog2 (Zpos n) (Zpos d) - 52) (Zpos n))
                (scaled_den (ilog2 (Zpos n) (Zpos d) - 52) (Zpos d)) P) as Hn.
  apply Z.abs_le in Hn.
  set (e := ilog2 (Zpos n) (Zpos d) - 52) in *.
  set (m := round_half_even (scaled_num e (Zpos n)) (scaled_den e (Zpos d)))
    in *.
  unfold scaled_num, scaled_den in *.
  change (2 ^ 52) with 4503599627370496 in Hl.
  destruct (Z.leb_spec 0 e) as [He|He].
  - pose proof (pow2_pos e He) as Pe.
    set (D := Zpos d * 2 ^ e) in *.
    unfold Qle, unit_roundoff. cbn [Qnum Qden Qmult Qplus Qminus Qopp inject_Z].
    rewrite !Pos2Z.inj_mul.
    assert (E : m * 2 ^ e * Zpos d = m * D) by (unfold D; ring).
    split; nia.
  - pose proof (pow2_pos (- e) ltac:(lia)) as Pe.
    set (T := 2 ^ (- e)) in *.
    unfold Qle, unit_roundoff. cbn [Qnum Qden Qmult Qplus Qminus Qopp inject_Z].
    rewrite !Pos2Z.inj_mul, Z2Pos.id by exact Pe.
    split; nia.
Qed.

Lemma round_error (x : Q) :
  (0 < x)%Q ->
  (x * (1 - unit_roundoff) <= Binary64.round x
   /\ Binary64.round x <= x * (1 + unit_roundoff))%Q.
Proof.
  intros Hx. destruct x as [xn xd]. unfold Qlt in Hx. simpl in Hx.
  unfold Binary64.round. cbn [Qnum Qden].
  destruct xn as [|n|n]; try lia. apply round_pos_error.
Qed.

Lemma round_zero (x : Q) : (x == 0)%Q -> Binary64.round x = 0%Q.
Proof.
  intros Hx. unfold Qeq in Hx. simpl in Hx. unfold Binary64.round.
  destruct (Qnum x); [reflexivity | lia | lia].
Qed.

Example binary64_samples :
  format_fixed 1 (Insights.percentage 23 80) = "28.7"%string
  /\ format_fixed 1 (Insights.percentage 1 2000) = "0.1"%string
  /\ format_fixed 0 (Insights.percentage 23 40) = "57"%string
  /\ format_fixed 2 (Binary64.div 43 40) = "1.07"%string
  /\ (Binary64.round (inject_Z (2 ^ 53 + 1)) == inject_Z (2 ^ 53))%Q.
Proof. repeat split; vm_compute; reflexivity. Qed.

End Binary64Facts.

(** ** The cleaning stage *)

Section CleaningFacts.
Import PyStr Cleaning.

Lemma mem_In (t : string) (seen : list string) : mem t seen = true <-> In t seen.
Proof.
  unfold mem. rewrite existsb_exists. split.
  - intros [x [Hx E]]. apply String.eqb_eq in E. now subst.
  - intros H. exists t. split; [exact H | apply String.eqb_refl].
Qed.

Lemma mem_false (t : string) (seen : list string) :
  mem t seen = false <-> ~ In t seen.
Proof.
  rewrite <- mem_In. destruct (mem t seen); split; congruence.
Qed.

(** Only membership in [seen] matters. *)
Lemma drop_duplicates_from_ext (df : list row) :
  forall seen seen',
    (forall t, mem t seen = mem t seen') ->
    drop_duplicates_from seen df = drop_duplicates_from seen' df.
Proof.
  induction df as [|r rest IH]; intros seen seen' E; simpl; [reflexivity|].
  rewrite <- (E (Text r)). destruct (mem (Text r) seen); [now apply IH|].
  f_equal. apply IH. intros t. simpl. now rewrite E.
Qed.

Lemma mem_app (t : string) (a b : list string) :
  mem t (a ++ b)%list = mem t a || mem t b.
Proof. apply existsb_app. Qed.

Lemma drop_duplicates_from_app (pre df : list row) :
  forall seen,
    drop_duplicates_from seen (pre ++ df)%list
    = (drop_duplicates_from seen pre
       ++ drop_duplicates_from (map Text pre ++ seen) df)%list.
Proof.
  induction pre as [|r pre IH]; intros seen; simpl; [reflexivity|].
  destruct (mem (Text r) seen) eqn:E.
  - rewrite IH. f_equal. apply drop_duplicates_from_ext. intros t.
    simpl. rewrite !mem_app.
    destruct (String.eqb t (Text r)) eqn:Et; [|reflexivity].
    apply String.eqb_eq in Et. subst t. rewrite E. now rewrite orb_true_r.
  - simpl. f_equal. rewrite IH. f_equal.
    apply drop_duplicates_from_ext. intros t.
    simpl. rewrite !mem_app. simpl.
    destruct (mem t (map Text pre)), (String.eqb t (Text r)); reflexivity.
Qed.

Lemma drop_duplicates_from_texts (df : list row) :
  forall seen t,
    In t (map Text (drop_duplicates_from seen df))
    <-> In t (map Text df) /\ ~ In t seen.
Proof.
  induction df as [|r rest IH]; intros seen t; simpl; [tauto|].
  destruct (mem (Text r) seen) eqn:E.
  - rewrite IH. apply mem_In in E. split; [tauto|].
    intros [[H|H] Hn]; [subst; contradiction | tauto].
  - apply mem_false in E. simpl. rewrite IH. simpl. split.
    + intros [H|[H Hn]]; [subst; tauto | tauto].
    + intros [[H|H] Hn]; [tauto|].
      destruct (string_dec (Text r) t); tauto.
Qed.

Lemma drop_duplicates_from_NoDup (df : list row) :
  forall seen, NoDup (map Text (drop_duplicates_from seen df)).
Proof.
  induction df as [|r rest IH]; intros seen; simpl; [constructor|].
  destruct (mem (Text r) seen); [apply IH|].
  simpl. constructor; [|apply IH].
  rewrite drop_duplicates_from_texts. simpl. tauto.
Qed.

Lemma drop_duplicates_first (pre post : list row) (r : row) :
  ~ In (Text r) (map Text pre) ->
  exists post',
    drop_duplicates (pre ++ r :: post)%list
    = (drop_duplicates pre ++ r :: post')%list.
Proof.
  intros H. unfold drop_duplicates. rewrite drop_duplicates_from_app. simpl.
  rewrite app_nil_r. apply mem_false in H. rewrite H. eauto.
Qed.

Lemma drop_duplicates_later (pre post : list row) (r : row) :
  In (Text r) (map Text pre) ->
  drop_duplicates (pre ++ r :: post)%list
  = (drop_duplicates pre
     ++ drop_duplicates_from (map Text pre) post)%list.
Proof.
  intros H. unfold drop_duplicates. rewrite drop_duplicates_from_app. simpl.
  rewrite app_nil_r. apply mem_In in H. now rewrite H.
Qed.

Lemma clean_frame_texts (df_sample : list raw_row) :
  map clean_Text (clean_frame df_sample)
  = filter (fun t => (20 <? String.length t)%nat)
      (map (fun r => strip (lower (Text r)))
           (drop_duplicates (dropna df_sample))).
Proof.
  unfold clean_frame, str_strip, str_lower.
  induction (drop_duplicates (dropna df_sample)) as [|r l IH]; simpl;
    [reflexivity|].
  unfold long_enough at 1. simpl.
  destruct (20 <? String.length (strip (lower (Text r))))%nat; simpl;
    [f_equal|]; exact IH.
Qed.

Lemma clean_reviews_inr sample sample_size df out :
  clean_reviews sample sample_size df = inr out ->
  exists df_sample,
    take_sample sample sample_size df = inr df_sample
    /\ out = clean_frame df_sample.
Proof.
  unfold clean_reviews.
  destruct (take_sample sample sample_size df) as [e|df_sample];
    [discriminate|].
  intros H. injection H as <-. now exists df_sample.
Qed.

Lemma head_sample_contract : sample_contract head_sample.
Proof.
  intros n seed df [H0 Hn]. unfold head_sample, len in *.
  destruct (Z.ltb_spec n 0) as [?|_]; [lia|].
  destruct (Z.ltb_spec (Z.of_nat (List.length df)) n) as [?|_]; [lia|].
  exists (seq 0 (Z.to_nat n)). repeat split.
  - f_equal.
    assert (Hk : (Z.to_nat n <= List.length df)%nat) by lia.
    generalize (Z.to_nat n) Hk. clear. intros k.
    revert df. induction k as [|k IH]; intros df Hk; [reflexivity|].
    destruct df as [|r df]; simpl in Hk; [lia|].
    simpl. f_equal. rewrite <- seq_shift, flat_map_concat_map, map_map.
    rewrite <- flat_map_concat_map. simpl. apply IH. lia.
  - rewrite length_seq. lia.
  - apply seq_NoDup.
  - apply Forall_forall. intros i Hi. apply in_seq in Hi. lia.
Qed.

End CleaningFacts.

Section CleaningClaims.
Import PyStr Cleaning.

Lemma take_sample_whole sample sample_size (df : list raw_row) :
  sample_size = None \/ sample_size = Some 0%Z
  \/ (exists n, sample_size = Some n /\ (len df <= n)%Z) ->
  take_sample sample sample_size df = inr df.
Proof.
  intros [->|[->|[n [-> Hn]]]]; [reflexivity | reflexivity |].
  unfold take_sample.
  destruct (Z.ltb_spec n (len df)) as [?|_]; [lia|].
  now rewrite andb_false_r.
Qed.

(** C1, as the code has it.  Duplicates are dropped on the raw [Text],
    before it is lowercased and stripped, and in the row order of the
    frame that is cleaned: the sampled frame, which is the input itself
    when no sample is drawn.  The rows kept by the de-duplication step
    have pairwise distinct raw texts, a row whose raw text has not occurred
    before in that frame is kept in its place and a row whose raw text has
    occurred is dropped; the surviving records carry the normalized texts
    of the kept rows that are longer than 20 characters. *)
Theorem C1_duplicates_dropped_on_raw_text
  (sample : Z -> Z -> list raw_row -> exn + list raw_row)
  (sample_size : option Z) (df : list raw_row) (out : list clean_row) :
  clean_reviews sample sample_size df = inr out ->
  exists df_sample,
    take_sample sample sample_size df = inr df_sample
    /\ (sample_size = None \/ sample_size = Some 0%Z
        \/ (exists n, sample_size = Some n /\ (len df <= n)%Z) ->
        df_sample = df)
    /\ NoDup (map Text (drop_duplicates (dropna df_sample)))
    /\ (forall pre r post,
          dropna df_sample = (pre ++ r :: post)%list ->
          ~ In (Text r) (map Text pre) ->
          exists post',
            drop_duplicates (dropna df_sample)
            = (drop_duplicates pre ++ r :: post')%list)
    /\ (forall pre r post,
          dropna df_sample = (pre ++ r :: post)%list ->
          In (Text r) (map Text pre) ->
          drop_duplicates (dropna df_sample)
          = (drop_duplicates pre
             ++ drop_duplicates_from (map Text pre) post)%list)
    /\ map clean_Text out
       = filter (fun t => (20 <? String.length t)%nat)
           (map (fun r => strip (lower (Text r)))
                (drop_duplicates (dropna df_sample))).
Proof.
  intros H. apply clean_reviews_inr in H. destruct H as [df_sample [Hs ->]].
  exists df_sample. split; [exact Hs|]. split; [|split; [|split; [|split]]].
  - intros Hw. rewrite (take_sample_whole sample _ _ Hw) in Hs.
    now injection Hs.
  - apply drop_duplicates_from_NoDup.
  - intros pre r post -> Hn. now apply drop_duplicates_first.
  - intros pre r post -> Hi. now apply drop_duplicates_later.
  - apply clean_frame_texts.
Qed.

Lemma C1_duplicates_dropped_on_raw_text_witness :
  exists df_sample,
    take_sample head_sample None [coffee_upper; coffee_upper; coffee_lower]
    = inr df_sample
    /\ (@None Z = None \/ None = Some 0%Z
        \/ (exists n,
              None = Some n
              /\ (len [coffee_upper; coffee_upper; coffee_lower] <= n)%Z) ->
        df_sample = [coffee_upper; coffee_upper; coffee_lower])
    /\ NoDup (map Text (drop_duplicates (dropna df_sample)))
    /\ (forall pre r post,
          dropna df_sample = (pre ++ r :: post)%list ->
          ~ In (Text r) (map Text pre) ->
          exists post',
            drop_duplicates (dropna df_sample)
            = (drop_duplicates pre ++ r :: post')%list)
    /\ (forall pre r post,
          dropna df_sample = (pre ++ r :: post)%list ->
          In (Text r) (map Text pre) ->
          drop_duplicates (dropna df_sample)
          = (drop_duplicates pre
             ++ drop_duplicates_from (map Text pre) post)%list)
    /\ map clean_Text
         (clean_frame [coffee_upper; coffee_upper; coffee_lower])
       = filter (fun t => (20 <? String.length t)%nat)
           (map (fun r => strip (lower (Text r)))
                (drop_duplicates (dropna df_sample))).
Proof.
  apply (C1_duplicates_dropped_on_raw_text head_sample None
           [coffee_upper; coffee_upper; coffee_lower]).
  reflexivity.
Defined.

(** With a sample drawn, the order is the drawn one: of two rows with the
    same raw text the one drawn first is kept, here the later row of the
    input. *)
Example drawn_order_decides_the_kept_duplicate :
  clean_reviews last_first_sample (Some 2%Z)
    [coffee_upper; tea_short; coffee_again]
  = inr [add_features (Row "great coffee, would buy it again!" 1 None)]
  /\ clean_reviews last_first_sample None
       [coffee_upper; tea_short; coffee_again]
     = inr [add_features (Row "great coffee, would buy it again!" 5 None)].
Proof. split; reflexivity. Qed.

(** C1 as stated fails: two rows whose raw texts differ only by case and
    trailing blanks both survive, with the same cleaned text. *)
Lemma C1_cleaned_texts_not_distinct :
  ~ (forall sample sample_size df out,
       clean_reviews sample sample_size df = inr out ->
       NoDup (map clean_Text out)).
Proof.
  intros H.
  specialize (H head_sample None [coffee_upper; coffee_lower] _ eq_refl).
  vm_compute in H. inversion H as [|x l Hn _]. apply Hn. now left.
Qed.

Example clean_two_coffees :
  map clean_Text (clean_frame [coffee_upper; coffee_lower])
  = ["great coffee, would buy it again!"; "great coffee, would buy it again!"].
Proof. reflexivity. Qed.

(** C8.  Every surviving record has a text of more than 20 characters,
    without whitespace at either end, and in lower case. *)
Theorem C8_cleaned_text_shape
  (sample : Z -> Z -> list raw_row -> exn + list raw_row)
  (sample_size : option Z) (df : list raw_row) (out : list clean_row)
  (r : clean_row) :
  clean_reviews sample sample_size df = inr out ->
  In r out ->
  (20 < String.length (clean_Text r))%nat
  /\ starts_with_space (clean_Text r) = false
  /\ ends_with_space (clean_Text r) = false
  /\ lower (clean_Text r) = clean_Text r.
Proof.
  intros H Hr. apply clean_reviews_inr in H. destruct H as [df_sample [_ ->]].
  apply (in_map clean_Text) in Hr. rewrite clean_frame_texts in Hr.
  apply filter_In in Hr. destruct Hr as [Hin Hlen].
  apply in_map_iff in Hin. destruct Hin as [r0 [E _]].
  rewrite <- E in *. repeat split.
  - now apply Nat.ltb_lt.
  - apply strip_no_lead.
  - apply strip_no_trail.
  - apply all_lower_spec, all_lower_strip, all_lower_lower.
Qed.

Lemma C8_cleaned_text_shape_witness :
  let r := add_features (Row "great coffee, would buy it again!" 4 None) in
  (20 < String.length (clean_Text r))%nat
  /\ starts_with_space (clean_Text r) = false
  /\ ends_with_space (clean_Text r) = false
  /\ lower (clean_Text r) = clean_Text r.
Proof.
  intros r.
  apply (C8_cleaned_text_shape head_sample None
           [tea_short; coffee_lower] (clean_frame [tea_short; coffee_lower])).
  - reflexivity.
  - vm_compute. left. reflexivity.
Defined.

Lemma sampled_rows_length (df : list raw_row) (positions : list nat) :
  Forall (fun i => (i < List.length df)%nat) positions ->
  List.length (flat_map (fun i => firstn 1 (skipn i df)) positions)
  = List.length positions.
Proof.
  induction 1 as [|i l Hi _ IH]; [reflexivity|].
  cbn [flat_map]. rewrite length_app, IH.
  rewrite length_firstn, length_skipn. cbn [List.length]. lia.
Qed.

(** C4, as the code has it.  When [sample_size] is an integer with
    [0 < sample_size < len(df)], the frame cleaned is the result of
    [df.sample(n=sample_size, random_state=42)]: exactly [sample_size] rows
    taken at distinct positions of the input, the same for the same input
    since the seed is the constant 42, and they are what the later steps
    clean.  When [sample_size] is [None], is 0, or is not smaller than the
    number of rows, the whole input is cleaned. *)
Theorem C4_sampling_step
  (sample : Z -> Z -> list raw_row -> exn + list raw_row)
  (sample_ok : sample_contract sample)
  (sample_size : option Z) (df : list raw_row) :
  (forall n,
      sample_size = Some n -> (0 < n < len df)%Z ->
      exists df_sample positions,
        take_sample sample sample_size df = inr df_sample
        /\ sample n 42%Z df = inr df_sample
        /\ len df_sample = n
        /\ df_sample = flat_map (fun i => firstn 1 (skipn i df)) positions
        /\ NoDup positions
        /\ Forall (fun i => (i < List.length df)%nat) positions
        /\ (forall out, clean_reviews sample sample_size df = inr out ->
                        out = clean_frame df_sample))
  /\ (sample_size = None \/ sample_size = Some 0%Z
      \/ (exists n, sample_size = Some n /\ (len df <= n)%Z) ->
      take_sample sample sample_size df = inr df
      /\ (forall out, clean_reviews sample sample_size df = inr out ->
                      out = clean_frame df)).
Proof.
  split.
  - intros n -> [H0 Hn].
    destruct (sample_ok n 42%Z df) as [positions [E [Hl [Hd Hf]]]]; [lia|].
    assert (Ht : take_sample sample (Some n) df = sample n 42%Z df).
    { unfold take_sample.
      destruct (Z.eqb_spec n 0) as [?|_]; [lia|].
      destruct (Z.ltb_spec n (len df)) as [_|?]; [reflexivity | lia]. }
    eexists. exists positions. repeat split; try eassumption.
    + now rewrite Ht.
    + unfold len in *. rewrite sampled_rows_length; assumption.
    + unfold clean_reviews. rewrite Ht, E. intros out Ho. now injection Ho.
  - intros H.
    assert (Ht : take_sample sample sample_size df = inr df).
    { destruct H as [->|[->|[n [-> Hn]]]]; [reflexivity | reflexivity |].
      unfold take_sample.
      destruct (Z.ltb_spec n (len df)) as [?|_]; [lia|].
      now rewrite andb_false_r. }
    split; [exact Ht|]. unfold clean_reviews. rewrite Ht.
    intros out Ho. now injection Ho.
Qed.

Lemma C4_sampling_step_witness :
  (exists df_sample positions,
      take_sample head_sample (Some 2%Z) [coffee_upper; tea_short; coffee_lower]
      = inr df_sample
      /\ head_sample 2%Z 42%Z [coffee_upper; tea_short; coffee_lower]
         = inr df_sample
      /\ len df_sample = 2%Z
      /\ df_sample
         = flat_map
             (fun i => firstn 1 (skipn i [coffee_upper; tea_short; coffee_lower]))
             positions
      /\ NoDup positions
      /\ Forall (fun i => (i < 3)%nat) positions
      /\ (forall out,
            clean_reviews head_sample (Some 2%Z)
              [coffee_upper; tea_short; coffee_lower] = inr out ->
            out = clean_frame df_sample))
  /\ take_sample head_sample (Some 0%Z) [coffee_upper; tea_short] 
     = inr [coffee_upper; tea_short].
Proof.
  split.
  - apply (proj1 (C4_sampling_step head_sample head_sample_contract
                    (Some 2%Z) [coffee_upper; tea_short; coffee_lower])
             2%Z eq_refl).
    unfold len; simpl; lia.
  - apply (proj2 (C4_sampling_step head_sample head_sample_contract
                    (Some 0%Z) [coffee_upper; tea_short])).
    right. left. reflexivity.
Defined.

(** C4 as stated fails at [sample_size = 0], which is smaller than the
    number of rows of a non-empty input: no row is drawn away, the whole
    input passes. *)
Lemma C4_zero_sample_size_passes_all :
  ~ (forall sample,
       sample_contract sample ->
       forall n df,
         (0 <= n < len df)%Z ->
         exists df_sample,
           take_sample sample (Some n) df = inr df_sample
           /\ len df_sample = n).
Proof.
  intros H.
  destruct (H head_sample head_sample_contract 0%Z [coffee_upper])
    as [df_sample [E Hl]].
  - unfold len; simpl; lia.
  - simpl in E. injection E as <-. discriminate Hl.
Qed.

(** A frame in which every row is dropped: a missing score, a text of 8
    characters and its duplicate. *)
Example nothing_survives :
  clean_frame [missing_score; tea_short; tea_short] = [].
Proof. reflexivity. Qed.

End CleaningClaims.

(** ** The sentiment buckets *)

Section SentimentClaims.
Import Sentiment.
Open Scope Q_scope.

Lemma categorize_sentiment_cases (score : Q) :
  (0.05 <= score /\ categorize_sentiment score = "Positive"%string)
  \/ (score <= - 0.05 /\ categorize_sentiment score = "Negative"%string)
  \/ (- 0.05 < score < 0.05
      /\ categorize_sentiment score = "Neutral"%string).
Proof.
  unfold categorize_sentiment.
  destruct (Qle_bool 0.05 score) eqn:Hp.
  - left. split; [now apply Qle_bool_iff | reflexivity].
  - destruct (Qle_bool score (- 0.05)) eqn:Hn.
    + right. left. split; [now apply Qle_bool_iff | reflexivity].
    + right. right. split; [split|reflexivity]; apply Qnot_le_lt; intros H;
        apply Qle_bool_iff in H; congruence.
Qed.

(** C5.  The category is decided by the compound score alone: Positive
    exactly from 0.05 up, Negative exactly from -0.05 down, Neutral exactly
    strictly between; one of the three labels is always returned and equal
    scores get the same label. *)
Theorem C5_sentiment_thresholds (score : Q) :
  (categorize_sentiment score = "Positive"%string <-> 0.05 <= score)
  /\ (categorize_sentiment score = "Negative"%string <-> score <= - 0.05)
  /\ (categorize_sentiment score = "Neutral"%string
      <-> - 0.05 < score < 0.05)
  /\ In (categorize_sentiment score)
        ["Positive"; "Negative"; "Neutral"]%string
  /\ (forall score', score == score' ->
        categorize_sentiment score = categorize_sentiment score').
Proof.
  assert (Hlow : - 0.05 < 0.05) by reflexivity.
  assert (Hx : forall a b : Q, a <= b -> b < a -> False).
  { intros a b H1 H2. apply (Qlt_irrefl a). eapply Qle_lt_trans; eassumption. }
  destruct (categorize_sentiment_cases score)
    as [[H E]|[[H E]|[[Hl Hu] E]]]; rewrite E.
  - split; [tauto|]. split; [|split; [|split]].
    + split; [discriminate|]. intros H'. exfalso. apply (Hx 0.05 score H).
      eapply Qle_lt_trans; eassumption.
    + split; [discriminate|]. intros [_ H']. exfalso. eapply Hx; eassumption.
    + simpl; tauto.
    + intros score' Eq. rewrite Eq in H. unfold categorize_sentiment.
      apply Qle_bool_iff in H. now rewrite H.
  - split; [|split; [tauto|split; [|split]]].
    + split; [discriminate|]. intros H'. exfalso. apply (Hx 0.05 score H').
      eapply Qle_lt_trans; eassumption.
    + split; [discriminate|]. intros [H' _]. exfalso. eapply Hx; eassumption.
    + simpl; tauto.
    + intros score' Eq. rewrite <- E. unfold categorize_sentiment.
      assert (Hp : Qle_bool 0.05 score = Qle_bool 0.05 score').
      { apply eq_true_iff_eq. rewrite !Qle_bool_iff. now rewrite Eq. }
      assert (Hn : Qle_bool score (- 0.05) = Qle_bool score' (- 0.05)).
      { apply eq_true_iff_eq. rewrite !Qle_bool_iff. now rewrite Eq. }
      now rewrite Hp, Hn.
  - split; [|split; [|split; [tauto|split]]].
    + split; [discriminate|]. intros H'. exfalso. eapply Hx; eassumption.
    + split; [discriminate|]. intros H'. exfalso. eapply Hx; eassumption.
    + simpl; tauto.
    + intros score' Eq. rewrite <- E. unfold categorize_sentiment.
      assert (Hp : Qle_bool 0.05 score = Qle_bool 0.05 score').
      { apply eq_true_iff_eq. rewrite !Qle_bool_iff. now rewrite Eq. }
      assert (Hn : Qle_bool score (- 0.05) = Qle_bool score' (- 0.05)).
      { apply eq_true_iff_eq. rewrite !Qle_bool_iff. now rewrite Eq. }
      now rewrite Hp, Hn.
Qed.

Lemma C5_sentiment_thresholds_witness :
  categorize_sentiment 0.05 = "Positive"%string
  /\ categorize_sentiment (- 0.05) = "Negative"%string
  /\ categorize_sentiment 0.0499 = "Neutral"%string
  /\ categorize_sentiment (1 # 20) = categorize_sentiment (5 # 100).
Proof.
  split; [|split; [|split]].
  - apply (proj1 (C5_sentiment_thresholds 0.05)). apply Qle_refl.
  - apply (proj1 (proj2 (C5_sentiment_thresholds (- 0.05)))). apply Qle_refl.
  - apply (proj1 (proj2 (proj2 (C5_sentiment_thresholds 0.0499)))).
    split; reflexivity.
  - apply (proj2 (proj2 (proj2 (proj2 (C5_sentiment_thresholds (1 # 20)))))).
    reflexivity.
Defined.

End SentimentClaims.

(** ** The topic categorizer *)

Section CategorizerFacts.
Import PyStr Insights.

Lemma any_in_spec (words : list string) (text : string) :
  any_in words text = true
  <-> exists word, In word words /\ contains word text = true.
Proof. apply existsb_exists. Qed.

Lemma any_in_incl (small large : list string) (text : string) :
  incl small large -> any_in small text = true -> any_in large text = true.
Proof.
  intros Hi H. apply any_in_spec in H. destruct H as [w [Hw Hc]].
  apply any_in_spec. exists w. split; [now apply Hi | exact Hc].
Qed.

Lemma categorize_is_first_match (review_text : string) :
  categorize_review_rule_based review_text
  = first_match category_rules (lower review_text).
Proof. reflexivity. Qed.

Lemma first_match_hit (rules pre post : list (string * list string))
      (label : string) (words : list string) (text_lower : string) :
  rules = (pre ++ (label, words) :: post)%list ->
  (forall rule, In rule pre -> any_in (snd rule) text_lower = false) ->
  any_in words text_lower = true ->
  first_match rules text_lower = label.
Proof.
  intros -> Hpre Hhit. induction pre as [|[l w] pre IH]; cbn [app first_match].
  - now rewrite Hhit.
  - pose proof (Hpre (l, w) (or_introl eq_refl)) as Hw. cbn [snd] in Hw.
    rewrite Hw. apply IH. intros rule Hr. apply Hpre. now right.
Qed.

Lemma first_match_none (rules : list (string * list string))
      (text_lower : string) :
  (forall rule, In rule rules -> any_in (snd rule) text_lower = false) ->
  first_match rules text_lower = "Other".
Proof.
  induction rules as [|[l w] rules IH]; intros H; cbn [first_match];
    [reflexivity|].
  pose proof (H (l, w) (or_introl eq_refl)) as Hw. cbn [snd] in Hw.
  rewrite Hw. apply IH. intros rule Hr. apply H. now right.
Qed.

Lemma first_match_label (rules : list (string * list string))
      (text_lower : string) :
  In (first_match rules text_lower) (map fst rules ++ ["Other"])%list.
Proof.
  induction rules as [|[l w] rules IH]; cbn [first_match map fst app];
    [now left|].
  destruct (any_in w text_lower); [now left | now right].
Qed.

End CategorizerFacts.

Section CategorizerClaims.
Import PyStr Insights.

(** C6.  The category of a text is one of the seven labels; it is the
    label of the first keyword set, in the order Shipping/Delivery,
    Customer Service, Product Quality, Taste/Flavor, Price/Value,
    Packaging, that has a keyword in the lowercased text, and Other when
    none has; a text with a shipping keyword and a quality keyword is
    Shipping/Delivery. *)
Theorem C6_first_matching_category (review_text : string) :
  map fst category_rules
  = ["Shipping/Delivery"; "Customer Service"; "Product Quality";
     "Taste/Flavor"; "Price/Value"; "Packaging"]
  /\ NoDup topic_labels
  /\ List.length topic_labels = 7%nat
  /\ In (categorize_review_rule_based review_text) topic_labels
  /\ (forall pre label words post,
        category_rules = (pre ++ (label, words) :: post)%list ->
        (forall rule, In rule pre ->
                      any_in (snd rule) (lower review_text) = false) ->
        any_in words (lower review_text) = true ->
        categorize_review_rule_based review_text = label)
  /\ ((forall rule, In rule category_rules ->
                    any_in (snd rule) (lower review_text) = false) ->
      categorize_review_rule_based review_text = "Other")
  /\ (any_in shipping_words (lower review_text) = true ->
      any_in quality_words (lower review_text) = true ->
      categorize_review_rule_based review_text = "Shipping/Delivery").
Proof.
  split; [reflexivity|]. split; [|split; [reflexivity|]].
  { unfold topic_labels. simpl.
    repeat (constructor; [simpl; intuition discriminate|]). constructor. }
  rewrite categorize_is_first_match.
  split; [apply first_match_label|]. split; [|split].
  - intros pre label words post E Hpre Hhit.
    eapply first_match_hit; eassumption.
  - apply first_match_none.
  - intros Hs _. apply (first_match_hit category_rules [] (tl category_rules)
                          "Shipping/Delivery" shipping_words).
    + reflexivity.
    + intros rule [].
    + exact Hs.
Qed.

Lemma C6_first_matching_category_witness :
  categorize_review_rule_based "The package was BROKEN and of poor quality"
  = "Shipping/Delivery"
  /\ categorize_review_rule_based "Poor quality, asked for a refund"
     = "Customer Service"
  /\ categorize_review_rule_based "Just fine." = "Other".
Proof.
  split; [|split].
  - destruct (C6_first_matching_category
                "The package was BROKEN and of poor quality")
      as (_ & _ & _ & _ & _ & _ & H).
    apply H; reflexivity.
  - destruct (C6_first_matching_category "Poor quality, asked for a refund")
      as (_ & _ & _ & _ & H & _).
    apply (H [("Shipping/Delivery", shipping_words)]
             "Customer Service" service_words (tl (tl category_rules))).
    + reflexivity.
    + intros rule [<-|[]]. reflexivity.
    + reflexivity.
  - destruct (C6_first_matching_category "Just fine.")
      as (_ & _ & _ & _ & _ & H & _).
    apply H. intros rule Hr. simpl in Hr.
    repeat (destruct Hr as [<-|Hr]; [reflexivity|]). destruct Hr.
Defined.

(** C9.  Categorization does not depend on the case of the text. *)
Theorem C9_case_insensitive (review_text : string) :
  categorize_review_rule_based review_text
  = categorize_review_rule_based (lower review_text)
  /\ categorize_review_rule_based "SHIPPING delay"
     = categorize_review_rule_based "shipping delay".
Proof.
  split; [|reflexivity].
  unfold categorize_review_rule_based. now rewrite lower_idem.
Qed.

(** C10.  Containment is on raw substrings: a text with the word
    "chocolate", in which the only keyword of either table that occurs is
    "late", is categorized Shipping/Delivery. *)
Theorem C10_chocolate_is_shipping :
  exists review_text,
    contains "chocolate" review_text = true
    /\ forallb (fun keyword =>
                  negb (contains keyword (lower review_text))
                  || String.eqb keyword "late")
               every_keyword = true
    /\ contains "late" "chocolate" = true
    /\ categorize_review_rule_based review_text = "Shipping/Delivery".
Proof.
  exists "I really love dark chocolate". repeat split.
Qed.

End CategorizerClaims.

(** ** Stable descending sort *)

Lemma firstn_In {A : Type} (n : nat) (l : list A) (x : A) :
  In x (firstn n l) -> In x l.
Proof.
  revert l. induction n as [|n IH]; intros [|y l]; simpl; try tauto.
  intros [H|H]; [now left | right; now apply IH].
Qed.

Section SortFacts.
Import Insights.
Context {A : Type}.
Variable le_key : A -> A -> bool.
Hypothesis le_key_total : forall x y, le_key x y = true \/ le_key y x = true.
Hypothesis le_key_trans :
  forall x y z, le_key x y = true -> le_key y z = true -> le_key x z = true.

(** [desc x y]: [x] may stand before [y]. *)
Let desc (x y : A) : Prop := le_key y x = true.

Lemma insert_desc_perm (x : A) (l : list A) :
  Permutation (insert_desc le_key x l) (x :: l).
Proof.
  induction l as [|y l IH]; simpl; [apply Permutation_refl|].
  destruct (le_key y x); [apply Permutation_refl|].
  eapply perm_trans; [apply perm_skip, IH | apply perm_swap].
Qed.

Lemma sorted_desc_perm (l : list A) : Permutation (sorted_desc le_key l) l.
Proof.
  induction l as [|x l IH]; simpl; [constructor|].
  eapply perm_trans; [apply insert_desc_perm | now apply perm_skip].
Qed.

Lemma insert_desc_sorted (x : A) (l : list A) :
  StronglySorted desc l -> StronglySorted desc (insert_desc le_key x l).
Proof.
  induction 1 as [|y l Hl IH Hy]; simpl.
  - constructor; constructor.
  - destruct (le_key y x) eqn:E.
    + constructor; [now constructor|]. constructor; [exact E|].
      rewrite Forall_forall in *. intros z Hz. unfold desc in *.
      eapply le_key_trans; [apply Hy, Hz | exact E].
    + constructor; [exact IH|].
      rewrite Forall_forall in *. intros z Hz.
      apply (Permutation_in _ (insert_desc_perm x l)) in Hz.
      destruct Hz as [<-|Hz]; [|now apply Hy].
      unfold desc. destruct (le_key_total x y) as [H|H]; congruence.
Qed.

Lemma sorted_desc_sorted (l : list A) :
  StronglySorted desc (sorted_desc le_key l).
Proof.
  induction l as [|x l IH]; simpl; [constructor | now apply insert_desc_sorted].
Qed.


End SortFacts.

(** ** The topic report *)

Section TopicReportFacts.
Import PyStr PyFormat Insights.

Lemma with_counts_ext (f g : list string -> nat) :
  (forall keywords, f keywords = g keywords) -> with_counts f = with_counts g.
Proof.
  intros H. unfold with_counts. apply map_ext. intros tk. now rewrite H.
Qed.

(** One pass of the inner loop raises the count of exactly the topics
    that have a keyword in the text. *)
Lemma count_text_step (f : list string -> nat) (text : string) :
  count_text (with_counts f) text
  = with_counts
      (fun keywords =>
         if any_in keywords (lower text) then S (f keywords) else f keywords).
Proof.
  unfold count_text, with_counts, topic_keywords.
  cbn [map fold_left fst snd].
  repeat match goal with
         | |- context [if any_in ?k ?t then _ else _] => destruct (any_in k t)
         end; reflexivity.
Qed.

Lemma fold_count_text (texts : list string) :
  forall f,
    fold_left count_text texts (with_counts f)
    = with_counts (fun keywords => f keywords + matching keywords texts).
Proof.
  induction texts as [|text texts IH]; intros f; simpl.
  - apply with_counts_ext. intros k. unfold matching. simpl. lia.
  - rewrite count_text_step, IH. apply with_counts_ext. intros k.
    unfold matching. simpl. destruct (any_in k (lower text)); simpl; lia.
Qed.

Lemma count_topics_spec (texts : list string) :
  count_topics texts = with_counts (fun keywords => matching keywords texts).
Proof.
  unfold count_topics.
  change (map (fun tk => (fst tk, 0)) topic_keywords)
    with (with_counts (fun _ => 0)).
  apply fold_count_text.
Qed.

Lemma Qle_bool_total (x y : Q) : Qle_bool x y = true \/ Qle_bool y x = true.
Proof.
  rewrite !Qle_bool_iff. destruct (Qlt_le_dec x y) as [H|H]; [left|right];
    [now apply Qlt_le_weak | exact H].
Qed.

Lemma Qle_bool_trans (x y z : Q) :
  Qle_bool x y = true -> Qle_bool y z = true -> Qle_bool x z = true.
Proof. rewrite !Qle_bool_iff. apply Qle_trans. Qed.

Lemma top_topics_entry (texts : list string) (topic : string) (pct : Q) :
  In (topic, pct) (top_topics texts) ->
  exists keywords,
    In (topic, keywords) topic_keywords
    /\ (0 < matching keywords texts)%nat
    /\ pct = percentage (matching keywords texts) (List.length texts).
Proof.
  unfold top_topics. intros H. apply firstn_In in H.
  apply (Permutation_in _ (sorted_desc_perm _ _)) in H.
  unfold topic_percentages in H. apply in_map_iff in H.
  destruct H as [[t c] [E H]]. simpl in E. injection E as <- <-.
  apply filter_In in H. destruct H as [H Hc]. simpl in Hc.
  rewrite count_topics_spec in H. unfold with_counts in H.
  apply in_map_iff in H. destruct H as [[t' k] [E H]]. simpl in E.
  injection E as <- <-. exists k. split; [exact H|].
  split; [now apply Nat.ltb_lt | reflexivity].
Qed.



End TopicReportFacts.

Section TopicReportClaims.
Import PyStr PyFormat Insights.



Example three_complaints_report :
  extract_topics_rule_based three_complaints
  = join newline
      [ "TOPIC 1: Product Quality";
        "Description: Predominantly negative mentions related to product quality";
        "Sentiment: Negative";
        "Prevalence: 66.7%";
        "";
        "TOPIC 2: Shipping/Delivery";
        "Description: Predominantly negative mentions related to shipping/delivery";
        "Sentiment: Negative";
        "Prevalence: 33.3%";
        "";
        "TOPIC 3: Packaging";
        "Description: Predominantly negative mentions related to packaging";
        "Sentiment: Negative";
        "Prevalence: 33.3%";
        "" ].
Proof. vm_compute. reflexivity. Qed.

(** An empty Negative subset gives an empty report. *)
Example empty_report : extract_topics_rule_based [] = "".
Proof. reflexivity. Qed.

End TopicReportClaims.

(** ** The two keyword tables *)

Section KeywordTableClaims.
Import PyStr Insights.

(** C3, as the code has it.  The categorizer and the topic report name
    the same six topics, and for each topic the categorizer's keywords are
    among those of the topic report: a text matching a topic for the
    categorizer matches it for the topic report. *)
Theorem C3_categorizer_keywords_included (topic : string)
        (words : list string) :
  In (topic, words) category_rules ->
  (forall t, In t (map fst category_rules) <-> In t (map fst topic_keywords))
  /\ exists keywords,
       In (topic, keywords) topic_keywords
       /\ incl words keywords
       /\ forall text,
            any_in words (lower text) = true ->
            any_in keywords (lower text) = true.
Proof.
  intros H. split; [intros t; simpl; tauto|].
  assert (Hex : exists keywords,
             In (topic, keywords) topic_keywords /\ incl words keywords).
  { simpl in H.
    repeat (destruct H as [H|H];
            [injection H as <- <-; eexists; split;
             [simpl; tauto
             |intros w Hw; simpl in Hw; simpl; tauto]|]).
    destruct H. }
  destruct Hex as [keywords [Hk Hi]]. exists keywords.
  split; [exact Hk|]. split; [exact Hi|].
  intros text. now apply any_in_incl.
Qed.

Lemma C3_categorizer_keywords_included_witness :
  (forall t, In t (map fst category_rules) <-> In t (map fst topic_keywords))
  /\ exists keywords,
       In ("Packaging", keywords) topic_keywords
       /\ incl packaging_words keywords
       /\ forall text,
            any_in packaging_words (lower text) = true ->
            any_in keywords (lower text) = true.
Proof.
  apply (C3_categorizer_keywords_included "Packaging" packaging_words).
  simpl. tauto.
Defined.

(** C3 as stated fails: "lost" is a Shipping/Delivery keyword of the topic
    report and not of the categorizer. *)
Lemma C3_keyword_sets_differ :
  ~ (forall topic words keywords text,
       In (topic, words) category_rules ->
       In (topic, keywords) topic_keywords ->
       (any_in words (lower text) = true
        <-> any_in keywords (lower text) = true)).
Proof.
  intros H.
  destruct (H "Shipping/Delivery" shipping_words
              ["shipping"; "delivery"; "arrived"; "package"; "late";
               "delayed"; "never received"; "lost"; "weeks"]
              "It got lost") as [_ Hback].
  - simpl. tauto.
  - simpl. tauto.
  - discriminate (Hback eq_refl).
Qed.

Example lost_counts_as_shipping_only_in_report :
  matching ["shipping"; "delivery"; "arrived"; "package"; "late"; "delayed";
            "never received"; "lost"; "weeks"] ["It got lost"] = 1%nat
  /\ categorize_review_rule_based "It got lost" = "Other".
Proof. split; reflexivity. Qed.

End KeywordTableClaims.

(** ** The executive summary *)

Section SummaryClaims.
Import PyStr PyFormat Insights.

(** C2, as the code has it.  Summarizing a frame without records (with
    the columns the function reads) raises nothing: the three paragraphs
    are returned, with a total of 0, the mean rating printed as "nan", 0%
    for each sentiment and the fixed issues phrase. *)
Theorem C2_empty_dataset_summary (df : frame) :
  records df = [] ->
  has_column "sentiment_category" df = true ->
  has_column "Score" df = true ->
  generate_executive_summary_template df
  = inr ("Analysis of 0 customer reviews reveals a rating average of nan out of 5 stars, with 0% expressing positive sentiment, 0% negative, and 0% neutral. This distribution suggests that while the majority of customers are satisfied, there is a significant segment experiencing issues that require attention."
         ++ newline ++ newline ++ para2 fallback_issues
         ++ newline ++ newline ++ para3).
Proof.
  intros Hr Hs Hc. unfold generate_executive_summary_template.
  rewrite Hs, Hc. simpl negb. cbv iota.
  assert (Hi : issues_text df = fallback_issues).
  { unfold issues_text. rewrite Hr. simpl.
    destruct (has_column "ai_category" df); reflexivity. }
  assert (Hp : para1 df = "Analysis of 0 customer reviews reveals a rating average of nan out of 5 stars, with 0% expressing positive sentiment, 0% negative, and 0% neutral. This distribution suggests that while the majority of customers are satisfied, there is a significant segment experiencing issues that require attention.").
  { unfold para1. rewrite Hr. vm_compute. reflexivity. }
  now rewrite Hi, Hp.
Qed.

Lemma C2_empty_dataset_summary_witness :
  exists text, generate_executive_summary_template empty_frame = inr text.
Proof.
  eexists.
  apply (C2_empty_dataset_summary empty_frame); reflexivity.
Defined.

(** C2 as stated fails: on the empty frame the function returns a text
    and raises no error. *)
Lemma C2_empty_dataset_not_rejected :
  ~ (forall df,
       records df = [] ->
       exists e, generate_executive_summary_template df = inl e).
Proof.
  intros H. destruct (H empty_frame eq_refl) as [e He]. discriminate He.
Qed.

Example ten_reviews_summary :
  para1 ten_reviews
  = "Analysis of 10 customer reviews reveals a rating average of 4.00 out of 5 stars, with 60% expressing positive sentiment, 30% negative, and 10% neutral. This distribution suggests that while the majority of customers are satisfied, there is a significant segment experiencing issues that require attention."
  /\ issues_text ten_reviews = fallback_issues.
Proof. split; vm_compute; reflexivity. Qed.

End SummaryClaims.

(** * Further properties of the code *)

(** ** Prefixes of sorted lists *)

Lemma firstn_StronglySorted {A : Type} (R : A -> A -> Prop) (n : nat)
      (l : list A) :
  StronglySorted R l -> StronglySorted R (firstn n l).
Proof.
  intros H. revert n. induction H as [|y l Hl IH Hy]; intros [|n]; simpl;
    try constructor.
  - apply IH.
  - rewrite Forall_forall in *. intros z Hz. apply Hy.
    revert Hz. apply firstn_In.
Qed.

(** ** Sub-sequences *)

Section SubseqFacts.
Context {A : Type}.

Lemma subseq_refl (l : list A) : subseq l l.
Proof. induction l; constructor; assumption. Qed.

Lemma subseq_trans (l1 l2 l3 : list A) :
  subseq l1 l2 -> subseq l2 l3 -> subseq l1 l3.
Proof.
  intros H12 H23. revert l1 H12.
  induction H23 as [|x l2 l3 H IH|x l2 l3 H IH]; intros l1 H12.
  - exact H12.
  - constructor. now apply IH.
  - inversion H12; subst; constructor; now apply IH.
Qed.

Lemma subseq_filter (p : A -> bool) (l : list A) : subseq (filter p l) l.
Proof.
  induction l as [|x l IH]; simpl; [constructor|].
  destruct (p x); constructor; exact IH.
Qed.

Lemma subseq_length (l1 l2 : list A) :
  subseq l1 l2 -> (List.length l1 <= List.length l2)%nat.
Proof. induction 1; simpl; lia. Qed.

Lemma subseq_In (l1 l2 : list A) (x : A) : subseq l1 l2 -> In x l1 -> In x l2.
Proof.
  induction 1 as [|y l1 l2 H IH|y l1 l2 H IH]; simpl; [tauto | tauto |].
  intros [E|Hx]; [now left | right; now apply IH].
Qed.

(** A relation kept row by row survives the removal of rows. *)
Lemma Forall2_subseq {B : Type} (R : A -> B -> Prop)
      (src : list A) (l l' : list B) :
  Forall2 R src l -> subseq l' l ->
  exists src', subseq src' src /\ Forall2 R src' l'.
Proof.
  intros HF HS. revert src HF.
  induction HS as [|y l' l H IH|y l' l H IH]; intros src HF.
  - inversion HF; subst. exists []. split; constructor.
  - inversion HF as [|x ? src0 ? Hxy HF0]; subst.
    destruct (IH src0 HF0) as [src' [Hs Hf]].
    exists src'. split; [now constructor | exact Hf].
  - inversion HF as [|x ? src0 ? Hxy HF0]; subst.
    destruct (IH src0 HF0) as [src' [Hs Hf]].
    exists (x :: src'). split; constructor; assumption.
Qed.

End SubseqFacts.

(** ** More on the cleaning stage *)

Section CleaningMore.
Import PyStr Cleaning CleaningReport.

(** The rows [dropna] keeps, paired with what it makes of them. *)
Lemma dropna_rows (df : list raw_row) :
  exists kept,
    subseq kept df
    /\ Forall2 (fun raw r =>
                  raw_Text raw = Some (Text r)
                  /\ raw_Score raw = Some (Score r)
                  /\ raw_Time raw = Time r)
               kept (dropna df).
Proof.
  induction df as [|raw df [kept [Hs Hf]]]; simpl.
  - exists []. split; constructor.
  - destruct (raw_Text raw) as [t|] eqn:Et;
      [destruct (raw_Score raw) as [s|] eqn:Es|].
    + exists (raw :: kept). split; [now constructor|].
      simpl. constructor; [now rewrite Et, Es | exact Hf].
    + exists kept. split; [now constructor | exact Hf].
    + exists kept. split; [now constructor | exact Hf].
Qed.

Lemma drop_duplicates_from_subseq (df : list row) :
  forall seen, subseq (drop_duplicates_from seen df) df.
Proof.
  induction df as [|r df IH]; intros seen; simpl; [constructor|].
  destruct (mem (Text r) seen); constructor; apply IH.
Qed.

Lemma Forall2_map_r {A B C : Type} (R : A -> C -> Prop) (f : B -> C)
      (src : list A) (l : list B) :
  Forall2 (fun a b => R a (f b)) src l -> Forall2 R src (map f l).
Proof. induction 1; simpl; constructor; assumption. Qed.

Lemma clean_frame_unfold (df_sample : list raw_row) :
  clean_frame df_sample
  = map (fun r => add_features (set_Text strip (set_Text lower r)))
        (filter (fun r => long_enough (set_Text strip (set_Text lower r)))
                (drop_duplicates (dropna df_sample))).
Proof.
  unfold clean_frame, str_strip, str_lower.
  induction (drop_duplicates (dropna df_sample)) as [|r l IH]; simpl;
    [reflexivity|].
  destruct (long_enough (set_Text strip (set_Text lower r))); simpl;
    [f_equal|]; exact IH.
Qed.

Lemma clean_frame_rows (df_sample : list raw_row) :
  exists kept,
    subseq kept df_sample /\ Forall2 cleaned_from kept (clean_frame df_sample).
Proof.
  destruct (dropna_rows df_sample) as [kept1 [Hs1 Hf1]].
  rewrite clean_frame_unfold.
  set (p := fun r => long_enough (set_Text strip (set_Text lower r))).
  assert (Hsub : subseq (filter p (drop_duplicates (dropna df_sample)))
                        (dropna df_sample)).
  { eapply subseq_trans; [apply subseq_filter|].
    apply drop_duplicates_from_subseq. }
  destruct (Forall2_subseq _ _ _ _ Hf1 Hsub) as [kept [Hs Hf]].
  exists kept. split; [eapply subseq_trans; eassumption|].
  apply Forall2_map_r. revert Hf. apply Forall2_impl.
  intros raw r (Ht & Hsc & Htm). exists (Text r). now repeat split.
Qed.

(** X1.  The frame returned lists, in the order of the sample, rows made
    from sampled rows that have both a text and a score: the text is the
    raw one lowercased and stripped, score and time are unchanged.  No row
    is invented, reordered or repeated, so the frame is never longer than
    the sample. *)
Theorem X1_survivors_in_order_from_complete_rows
  (sample : Z -> Z -> list raw_row -> exn + list raw_row)
  (sample_size : option Z) (df : list raw_row) (out : list clean_row) :
  clean_reviews sample sample_size df = inr out ->
  exists df_sample kept,
    take_sample sample sample_size df = inr df_sample
    /\ subseq kept df_sample
    /\ Forall2 cleaned_from kept out
    /\ (List.length out <= List.length df_sample)%nat.
Proof.
  intros H. apply clean_reviews_inr in H. destruct H as [df_sample [Hs ->]].
  destruct (clean_frame_rows df_sample) as [kept [Hk Hf]].
  exists df_sample, kept. repeat split; try assumption.
  rewrite <- (Forall2_length Hf). now apply subseq_length.
Qed.

Lemma X1_survivors_in_order_from_complete_rows_witness :
  exists df_sample kept,
    take_sample head_sample None [missing_score; coffee_upper; tea_short]
    = inr df_sample
    /\ subseq kept df_sample
    /\ Forall2 cleaned_from kept
         (clean_frame [missing_score; coffee_upper; tea_short])
    /\ (List.length (clean_frame [missing_score; coffee_upper; tea_short])
        <= List.length df_sample)%nat.
Proof.
  apply (X1_survivors_in_order_from_complete_rows head_sample None
           [missing_score; coffee_upper; tea_short]).
  reflexivity.
Defined.

Lemma len_filter_le {A : Type} (p : A -> bool) (l : list A) :
  (len (filter p l) <= len l)%Z.
Proof.
  unfold len. apply inj_le, subseq_length, subseq_filter.
Qed.

Lemma len_dropna_le (df : list raw_row) : (len (dropna df) <= len df)%Z.
Proof.
  destruct (dropna_rows df) as [kept [Hs Hf]]. unfold len.
  rewrite <- (Forall2_length Hf). apply inj_le. now apply subseq_length.
Qed.

(** X2.  The three removal counts printed by the cleaner are never
    negative and, with the size of the final frame, add up to the size of
    the sample; the final size is the number of rows returned. *)
Theorem X2_removal_counts_account_for_every_row (df_sample : list raw_row) :
  (0 <= removed_missing (count_removals df_sample))%Z
  /\ (0 <= removed_duplicate (count_removals df_sample))%Z
  /\ (0 <= removed_short (count_removals df_sample))%Z
  /\ (removed_missing (count_removals df_sample)
      + removed_duplicate (count_removals df_sample)
      + removed_short (count_removals df_sample)
      + final_count (count_removals df_sample)
      = len df_sample)%Z
  /\ final_count (count_removals df_sample) = len (clean_frame df_sample).
Proof.
  unfold count_removals. cbn [removed_missing removed_duplicate removed_short
                               final_count].
  pose proof (len_dropna_le df_sample) as H1.
  assert (H2 : (len (drop_duplicates (dropna df_sample))
                <= len (dropna df_sample))%Z).
  { unfold len. apply inj_le, subseq_length, drop_duplicates_from_subseq. }
  pose proof (len_filter_le long_enough
                (str_strip (str_lower (drop_duplicates (dropna df_sample)))))
    as H3.
  assert (H4 : len (str_strip (str_lower (drop_duplicates (dropna df_sample))))
               = len (drop_duplicates (dropna df_sample))).
  { unfold len, str_strip, str_lower. now rewrite !length_map. }
  repeat split; try lia.
  unfold clean_frame, len. now rewrite length_map.
Qed.

Lemma count_words_bounds (s : string) :
  forall inword,
    (2 * count_words inword s
     <= String.length s + (if inword then 0 else 1))%nat.
Proof.
  induction s as [|c t IH]; intros inword; simpl; [lia|].
  destruct (isspace c).
  - specialize (IH false). simpl in IH. destruct inword; lia.
  - specialize (IH true). simpl in IH. destruct inword; lia.
Qed.

Lemma word_count_positive (s : string) :
  s <> EmptyString -> starts_with_space s = false ->
  (1 <= PyStr.word_count s)%nat.
Proof.
  destruct s as [|c t]; [congruence|]. simpl. intros _ Hc.
  unfold PyStr.word_count. simpl. rewrite Hc. lia.
Qed.

(** X3.  In every returned row [review_length] is the length of the
    cleaned text, above 20, and [word_count] is at least 1 and at most
    half of [review_length + 1]. *)
Theorem X3_length_and_word_count_features
  (sample : Z -> Z -> list raw_row -> exn + list raw_row)
  (sample_size : option Z) (df : list raw_row) (out : list clean_row)
  (r : clean_row) :
  clean_reviews sample sample_size df = inr out ->
  In r out ->
  review_length r = String.length (clean_Text r)
  /\ (20 < review_length r)%nat
  /\ (1 <= word_count r)%nat
  /\ (2 * word_count r <= review_length r + 1)%nat.
Proof.
  intros H Hr. apply clean_reviews_inr in H. destruct H as [df_sample [_ ->]].
  rewrite clean_frame_unfold in Hr. apply in_map_iff in Hr.
  destruct Hr as [r0 [<- Hr0]]. apply filter_In in Hr0.
  destruct Hr0 as [_ Hlen]. unfold long_enough in Hlen.
  apply Nat.ltb_lt in Hlen.
  unfold clean_Text. cbn [add_features base review_length word_count].
  set (t := Text (set_Text strip (set_Text lower r0))) in *.
  split; [reflexivity|]. split; [exact Hlen|]. split.
  - apply word_count_positive.
    + intros E. rewrite E in Hlen. simpl in Hlen. lia.
    + apply strip_no_lead.
  - pose proof (count_words_bounds t false) as Hb. exact Hb.
Qed.

Lemma X3_length_and_word_count_features_witness :
  let r := add_features (Row "great coffee, would buy it again!" 4 None) in
  review_length r = String.length (clean_Text r)
  /\ (20 < review_length r)%nat
  /\ (1 <= word_count r)%nat
  /\ (2 * word_count r <= review_length r + 1)%nat.
Proof.
  intros r.
  apply (X3_length_and_word_count_features head_sample None
           [tea_short; coffee_lower] (clean_frame [tea_short; coffee_lower])).
  - reflexivity.
  - vm_compute. left. reflexivity.
Defined.

Lemma dropna_texts (df : list raw_row) (t : string) :
  In t (map Text (dropna df)) -> In (Some t) (map raw_Text df).
Proof.
  induction df as [|raw df IH]; simpl; [tauto|].
  destruct (raw_Text raw) as [t0|] eqn:Et;
    [destruct (raw_Score raw)|]; simpl; intros H.
  - destruct H as [<-|H]; [now left | right; now apply IH].
  - right. now apply IH.
  - right. now apply IH.
Qed.

(** X4.  When lowercasing and stripping does not identify two different
    raw texts of the sample (so, in particular, when the raw texts are
    already lowercase and trimmed), the cleaned texts of the returned rows
    are pairwise distinct. *)
Theorem X4_distinct_when_normalization_is_injective
  (sample : Z -> Z -> list raw_row -> exn + list raw_row)
  (sample_size : option Z) (df df_sample : list raw_row)
  (out : list clean_row) :
  take_sample sample sample_size df = inr df_sample ->
  (forall t1 t2,
      In (Some t1) (map raw_Text df_sample) ->
      In (Some t2) (map raw_Text df_sample) ->
      normalize t1 = normalize t2 -> t1 = t2) ->
  clean_reviews sample sample_size df = inr out ->
  NoDup (map clean_Text out).
Proof.
  intros Hs Hinj H. apply clean_reviews_inr in H.
  destruct H as [df_sample' [Hs' ->]].
  rewrite Hs in Hs'. injection Hs' as <-.
  rewrite clean_frame_texts. apply NoDup_filter.
  rewrite <- (map_map Text (fun t => strip (lower t))).
  apply NoDup_map_NoDup_ForallPairs; [|apply drop_duplicates_from_NoDup].
  intros t1 t2 H1 H2 E.
  apply Hinj; [| |exact E]; apply dropna_texts;
    [apply (drop_duplicates_from_texts _ [] t1) in H1
    |apply (drop_duplicates_from_texts _ [] t2) in H2]; tauto.
Qed.

Lemma X4_distinct_when_normalization_is_injective_witness :
  NoDup (map clean_Text (clean_frame [coffee_upper; coffee_upper; tea_short])).
Proof.
  apply (X4_distinct_when_normalization_is_injective head_sample None
           [coffee_upper; coffee_upper; tea_short]
           [coffee_upper; coffee_upper; tea_short]).
  - reflexivity.
  - intros t1 t2 H1 H2 E. simpl in H1, H2.
    destruct H1 as [H1|[H1|[H1|[]]]]; injection H1 as <-;
      destruct H2 as [H2|[H2|[H2|[]]]]; injection H2 as <-;
      try reflexivity; vm_compute in E; discriminate E.
  - reflexivity.
Defined.

End CleaningMore.

(** ** Tables of counts *)

Section CounterFacts.
Import Insights SentimentReport.

Lemma lookup_count_tally (w v : string) (counts : list (string * nat)) :
  lookup_count w (tally v counts)
  = (lookup_count w counts + (if String.eqb v w then 1 else 0))%nat.
Proof.
  induction counts as [|[k c] rest IH]; simpl.
  - destruct (String.eqb v w); reflexivity.
  - destruct (String.eqb k v) eqn:Ekv; simpl.
    + apply String.eqb_eq in Ekv. subst k.
      destruct (String.eqb v w); lia.
    + destruct (String.eqb k w) eqn:Ekw; [|exact IH].
      apply String.eqb_eq in Ekw. rewrite <- Ekw, (String.eqb_sym v k), Ekv.
      lia.
Qed.

Lemma tally_keys (v : string) (counts : list (string * nat)) :
  map fst (tally v counts)
  = if existsb (String.eqb v) (map fst counts) then map fst counts
    else (map fst counts ++ [v])%list.
Proof.
  induction counts as [|[k c] rest IH]; simpl; [reflexivity|].
  rewrite (String.eqb_sym v k).
  destruct (String.eqb k v); simpl; [reflexivity|].
  rewrite IH. now destruct (existsb (String.eqb v) (map fst rest)).
Qed.

Lemma tally_NoDup (v : string) (counts : list (string * nat)) :
  NoDup (map fst counts) -> NoDup (map fst (tally v counts)).
Proof.
  intros H. rewrite tally_keys.
  destruct (existsb (String.eqb v) (map fst counts)) eqn:E; [exact H|].
  apply NoDup_rev in H. rewrite <- (rev_involutive (_ ++ _)%list).
  apply NoDup_rev. rewrite rev_app_distr. simpl. constructor; [|exact H].
  rewrite <- in_rev. intros Hin.
  assert (existsb (String.eqb v) (map fst counts) = true); [|congruence].
  apply existsb_exists. exists v. split; [exact Hin | apply String.eqb_refl].
Qed.

Lemma tally_positive (v : string) (counts : list (string * nat)) :
  Forall (fun p => (0 < snd p)%nat) counts ->
  Forall (fun p => (0 < snd p)%nat) (tally v counts).
Proof.
  induction 1 as [|[k c] rest Hc Hrest IH]; simpl.
  - constructor; [simpl; lia | constructor].
  - destruct (String.eqb k v); constructor; simpl in *; try lia; assumption.
Qed.

Lemma tally_sum (v : string) (counts : list (string * nat)) :
  list_sum (map snd (tally v counts)) = S (list_sum (map snd counts)).
Proof.
  induction counts as [|[k c] rest IH]; simpl; [reflexivity|].
  destruct (String.eqb k v); simpl; [reflexivity | rewrite IH; lia].
Qed.

Lemma lookup_count_In (w : string) (c : nat) (counts : list (string * nat)) :
  NoDup (map fst counts) -> In (w, c) counts -> lookup_count w counts = c.
Proof.
  induction counts as [|[k c0] rest IH]; simpl; [tauto|].
  intros Hnd [E|Hin].
  - injection E as -> ->. now rewrite String.eqb_refl.
  - inversion Hnd as [|? ? Hk Hrest]; subst.
    destruct (String.eqb k w) eqn:Ek; [|now apply IH].
    apply String.eqb_eq in Ek. subst k. exfalso. apply Hk.
    apply (in_map fst) in Hin. exact Hin.
Qed.

Lemma counter_snoc (items : list string) (v : string) :
  counter (items ++ [v]) = tally v (counter items).
Proof. unfold counter. now rewrite fold_left_app. Qed.

Lemma count_of_snoc (w v : string) (items : list string) :
  count_of w (items ++ [v])
  = (count_of w items + (if String.eqb v w then 1 else 0))%nat.
Proof.
  unfold count_of. rewrite filter_app, length_app. cbn [filter].
  rewrite (String.eqb_sym v w). now destruct (String.eqb w v).
Qed.

(** The counter holds every item once, with its number of occurrences. *)
Lemma counter_spec (items : list string) :
  NoDup (map fst (counter items))
  /\ Forall (fun p => (0 < snd p)%nat) (counter items)
  /\ (forall w, lookup_count w (counter items) = count_of w items)
  /\ list_sum (map snd (counter items)) = List.length items
  /\ (forall w, In w (map fst (counter items)) -> In w items).
Proof.
  induction items as [|v items (Hnd & Hpos & Hlook & Hsum & Hkeys)]
    using rev_ind.
  - repeat split; simpl; try constructor. tauto.
  - rewrite counter_snoc. repeat split.
    + now apply tally_NoDup.
    + now apply tally_positive.
    + intros w. now rewrite lookup_count_tally, Hlook, count_of_snoc.
    + rewrite tally_sum, Hsum, length_app. simpl. lia.
    + intros w. rewrite tally_keys, in_app_iff.
      destruct (existsb (String.eqb v) (map fst (counter items))).
      * intros H. left. now apply Hkeys.
      * rewrite in_app_iff. simpl. intros [H|[<-|[]]]; [left|right; left];
          auto.
Qed.

Lemma counter_entry (items : list string) (w : string) (c : nat) :
  In (w, c) (counter items) -> c = count_of w items /\ (0 < c)%nat.
Proof.
  destruct (counter_spec items) as (Hnd & Hpos & Hlook & _ & _).
  intros H. split.
  - rewrite <- Hlook. symmetry. now apply lookup_count_In.
  - rewrite Forall_forall in Hpos. apply (Hpos (w, c) H).
Qed.

Lemma list_sum_perm (l l' : list nat) :
  Permutation l l' -> list_sum l = list_sum l'.
Proof. induction 1; simpl; lia. Qed.

Lemma NoDup_firstn {A : Type} (n : nat) (l : list A) :
  NoDup l -> NoDup (firstn n l).
Proof.
  intros H. revert n. induction H as [|x l Hx Hl IH]; intros [|n]; simpl;
    try constructor.
  - intros Hin. apply Hx. revert Hin. apply firstn_In.
  - apply IH.
Qed.

Lemma by_count_total (x y : string * nat) :
  by_count x y = true \/ by_count y x = true.
Proof.
  unfold by_count. destruct (Nat.leb_spec (snd x) (snd y)); [now left|].
  right. apply Nat.leb_le. lia.
Qed.

Lemma by_count_trans (x y z : string * nat) :
  by_count x y = true -> by_count y z = true -> by_count x z = true.
Proof. unfold by_count. rewrite !Nat.leb_le. lia. Qed.

(** What [value_counts] and [most_common] return. *)
Lemma sorted_counter_spec (items : list string) :
  let table := sorted_desc by_count (counter items) in
  NoDup (map fst table)
  /\ (forall w c, In (w, c) table -> c = count_of w items /\ (0 < c)%nat)
  /\ (forall w, In w (map fst table) -> In w items)
  /\ list_sum (map snd table) = List.length items
  /\ StronglySorted (fun a b => (snd b <= snd a)%nat) table.
Proof.
  intros table.
  pose proof (sorted_desc_perm by_count (counter items)) as Hp.
  destruct (counter_spec items) as (Hnd & _ & _ & Hsum & Hkeys).
  split; [|split; [|split; [|split]]].
  - apply (Permutation_NoDup (Permutation_sym (Permutation_map fst Hp)) Hnd).
  - intros w c H. apply counter_entry. apply (Permutation_in _ Hp H).
  - intros w Hw. apply Hkeys.
    apply (Permutation_in _ (Permutation_map fst Hp) Hw).
  - rewrite <- Hsum. apply list_sum_perm, Permutation_map, Hp.
  - pose proof (sorted_desc_sorted by_count by_count_total by_count_trans
                  (counter items)) as Hs.
    revert Hs. apply StronglySorted_ind; [constructor|].
    intros a l _ IH Ha. constructor; [exact IH|].
    rewrite Forall_forall in *. intros b Hb. apply Nat.leb_le. now apply Ha.
Qed.

End CounterFacts.

(** ** More on the sentiment stage *)

Section SentimentMore.
Import PyStr Sentiment Insights SentimentReport.

(** X5.  A higher compound score never gets a lower category on the scale
    Negative < Neutral < Positive. *)
Theorem X5_category_monotone_in_score (s1 s2 : Q) :
  (s1 <= s2)%Q ->
  (sentiment_rank (categorize_sentiment s1)
   <= sentiment_rank (categorize_sentiment s2))%nat.
Proof.
  intros H.
  destruct (categorize_sentiment_cases s1) as [[H1 E1]|[[H1 E1]|[[H1 H1'] E1]]];
    destruct (categorize_sentiment_cases s2)
      as [[H2 E2]|[[H2 E2]|[[H2 H2'] E2]]];
    rewrite E1, E2; cbv; try lia; exfalso; lra.
Qed.

Lemma X5_category_monotone_in_score_witness :
  (sentiment_rank (categorize_sentiment (- 0.3))
   <= sentiment_rank (categorize_sentiment 0.01))%nat.
Proof.
  apply (X5_category_monotone_in_score (- 0.3) 0.01). discriminate.
Defined.

(** X6.  The thresholds are symmetric: the category of the opposite score
    is the opposite category (Positive and Negative exchanged, Neutral
    kept). *)
Theorem X6_opposite_score_opposite_category (score : Q) :
  categorize_sentiment (- score) = mirror (categorize_sentiment score).
Proof.
  destruct (categorize_sentiment_cases score)
    as [[H1 E1]|[[H1 E1]|[[H1 H1'] E1]]];
    destruct (categorize_sentiment_cases (- score))
      as [[H2 E2]|[[H2 E2]|[[H2 H2'] E2]]];
    rewrite E1, E2; try reflexivity; exfalso; lra.
Qed.

Lemma value_counts_sorted_counter (values : list string) :
  value_counts values = sorted_desc by_count (counter values).
Proof. reflexivity. Qed.

Lemma sentiment_column_labels (vader_compound : list Q) (label : string) :
  In label (sentiment_column vader_compound) ->
  In label ["Positive"; "Negative"; "Neutral"].
Proof.
  unfold sentiment_column. intros H. apply in_map_iff in H.
  destruct H as [s [<- _]].
  destruct (categorize_sentiment_cases s) as [[_ ->]|[[_ ->]|[_ ->]]];
    simpl; tauto.
Qed.

(** X7.  The sentiment distribution computed from the compound scores
    lists each category that occurs once, with the number of reviews of
    that category; it has at most three entries, all among Positive,
    Negative and Neutral, in descending order of count, and its counts
    add up to the number of reviews. *)
Theorem X7_sentiment_distribution (vader_compound : list Q) :
  NoDup (map fst (sentiment_dist vader_compound))
  /\ (List.length (sentiment_dist vader_compound) <= 3)%nat
  /\ (forall category count,
        In (category, count) (sentiment_dist vader_compound) ->
        In category ["Positive"; "Negative"; "Neutral"]
        /\ count = count_of category (sentiment_column vader_compound)
        /\ (0 < count)%nat)
  /\ list_sum (map snd (sentiment_dist vader_compound))
     = List.length vader_compound
  /\ StronglySorted (fun a b => (snd b <= snd a)%nat)
                    (sentiment_dist vader_compound).
Proof.
  unfold sentiment_dist. rewrite value_counts_sorted_counter.
  destruct (sorted_counter_spec (sentiment_column vader_compound))
    as (Hnd & Hent & Hkeys & Hsum & Hsorted).
  assert (Hlab : incl (map fst (sorted_desc by_count
                                  (counter (sentiment_column vader_compound))))
                      ["Positive"; "Negative"; "Neutral"]).
  { intros w Hw. apply (sentiment_column_labels vader_compound).
    now apply Hkeys. }
  split; [exact Hnd|]. split; [|split; [|split]].
  - rewrite <- (length_map fst).
    apply (NoDup_incl_length Hnd Hlab).
  - intros category count H. split; [|now apply Hent].
    apply Hlab. apply (in_map fst) in H. exact H.
  - rewrite Hsum. unfold sentiment_column. apply length_map.
  - exact Hsorted.
Qed.

Lemma X7_sentiment_distribution_witness :
  In "Negative" ["Positive"; "Negative"; "Neutral"]
  /\ 2%nat = count_of "Negative" (sentiment_column [0.5; - 0.2; - 0.9; 0]%Q)
  /\ (0 < 2)%nat.
Proof.
  destruct (X7_sentiment_distribution [0.5; - 0.2; - 0.9; 0]%Q)
    as (_ & _ & H & _).
  apply (H "Negative" 2%nat). vm_compute. left. reflexivity.
Defined.

(** *** The word table *)

Lemma string_app_assoc (a b c : string) : (a ++ b) ++ c = a ++ b ++ c.
Proof. induction a as [|x a IH]; simpl; [reflexivity | now rewrite IH]. Qed.

Lemma string_app_nil_r (a : string) : a ++ "" = a.
Proof. induction a as [|x a IH]; simpl; [reflexivity | now rewrite IH]. Qed.

(** A character that is not a word character closes the run in progress. *)
Lemma word_runs_break (a b : string) (c : ascii) :
  is_word_char c = false ->
  forall run,
    word_runs run (a ++ String c b)
    = (word_runs run a ++ word_runs "" b)%list.
Proof.
  intros Hc. induction a as [|x a IH]; intros run; simpl.
  - now rewrite Hc.
  - destruct (is_word_char x); [apply IH|].
    rewrite IH. now rewrite app_assoc.
Qed.

Lemma findall_words_break (a b : string) (c : ascii) :
  is_word_char c = false ->
  findall_words (a ++ String c b)
  = (findall_words a ++ findall_words b)%list.
Proof.
  intros Hc. unfold findall_words.
  now rewrite (word_runs_break a b c Hc), filter_app.
Qed.

(** X8.  Joining the reviews with a blank neither merges nor splits
    words: the words found in the joined text are the words found in each
    review, in order. *)
Theorem X8_words_of_joined_reviews (negative_reviews : list string) :
  findall_words (join " " negative_reviews)
  = flat_map findall_words negative_reviews.
Proof.
  induction negative_reviews as [|text rest IH]; [reflexivity|].
  destruct rest as [|text' rest].
  - simpl. now rewrite app_nil_r.
  - change (join " " (text :: text' :: rest))
      with (text ++ " " ++ join " " (text' :: rest)).
    change (" " ++ join " " (text' :: rest))
      with (String " " (join " " (text' :: rest))).
    rewrite findall_words_break by reflexivity.
    rewrite IH. reflexivity.
Qed.

Lemma word_runs_substring (s : string) :
  forall run w,
    In w (word_runs run s) -> exists a b, run ++ s = a ++ w ++ b.
Proof.
  induction s as [|c t IH]; intros run w; simpl.
  - destruct run as [|x run]; simpl; [tauto|].
    intros [<-|[]]. exists "", "". simpl. now rewrite !string_app_nil_r.
  - destruct (is_word_char c).
    + intros H. apply IH in H. destruct H as [a [b E]].
      exists a, b. rewrite <- E, string_app_assoc. reflexivity.
    + rewrite in_app_iff. intros [H|H].
      * destruct run as [|x run]; simpl in H; [tauto|].
        destruct H as [<-|[]]. exists "", (String c t). reflexivity.
      * apply IH in H. destruct H as [a [b E]]. simpl in E.
        exists (run ++ String c a), b.
        rewrite string_app_assoc. simpl. now rewrite E.
Qed.

Lemma findall_words_In (text w : string) :
  In w (findall_words text) ->
  (4 <= String.length w)%nat /\ all_az w = true /\ contains w text = true.
Proof.
  unfold findall_words. intros H. apply filter_In in H.
  destruct H as [Hr Hp]. apply andb_true_iff in Hp. destruct Hp as [Hl Ha].
  split; [now apply Nat.leb_le|]. split; [exact Ha|].
  apply contains_spec. apply word_runs_substring in Hr. exact Hr.
Qed.

Lemma most_common_sorted_counter (n : nat) (items : list string) :
  most_common n items = firstn n (sorted_desc by_count (counter items)).
Proof. reflexivity. Qed.

(** X9.  The table of top words of the negative reviews has at most 20
    entries, each a different word, in descending order of count.  Every
    word in it has at least four characters, all letters [a-z], is not a
    stop word, occurs in one of the reviews, and is listed with the
    number of times it was found. *)
Theorem X9_top_negative_words (negative_reviews : list string) :
  (List.length (top_negative_words negative_reviews) <= 20)%nat
  /\ NoDup (map fst (top_negative_words negative_reviews))
  /\ StronglySorted (fun a b => (snd b <= snd a)%nat)
                    (top_negative_words negative_reviews)
  /\ (forall word count,
        In (word, count) (top_negative_words negative_reviews) ->
        (4 <= String.length word)%nat
        /\ all_az word = true
        /\ ~ In word stop_words
        /\ (exists text, In text negative_reviews
                         /\ contains word text = true)
        /\ count = count_of word
                     (filter_stop_words
                        (flat_map findall_words negative_reviews))
        /\ (0 < count)%nat).
Proof.
  unfold top_negative_words. rewrite X8_words_of_joined_reviews.
  rewrite most_common_sorted_counter.
  set (words := filter_stop_words (flat_map findall_words negative_reviews)).
  destruct (sorted_counter_spec words) as (Hnd & Hent & Hkeys & _ & Hsorted).
  split; [apply firstn_le_length|]. split; [|split].
  - rewrite <- firstn_map. now apply NoDup_firstn.
  - apply firstn_StronglySorted. exact Hsorted.
  - intros word count H. apply firstn_In in H.
    assert (Hw : In word words).
    { apply Hkeys. apply (in_map fst) in H. exact H. }
    unfold words, filter_stop_words in Hw. apply filter_In in Hw.
    destruct Hw as [Hfound Hstop]. apply in_flat_map in Hfound.
    destruct Hfound as [text [Htext Hfound]].
    apply findall_words_In in Hfound. destruct Hfound as (Hl & Ha & Hc).
    destruct (Hent word count H) as [Hcount Hpos].
    repeat split; try assumption.
    + intros Hin. apply negb_true_iff in Hstop.
      assert (existsb (String.eqb word) stop_words = true); [|congruence].
      apply existsb_exists. exists word. split; [exact Hin|].
      apply String.eqb_refl.
    + exists text. now split.
Qed.

Lemma X9_top_negative_words_witness :
  (4 <= String.length "awful")%nat
  /\ all_az "awful" = true
  /\ ~ In "awful" stop_words
  /\ (exists text, In text two_negative_texts
                   /\ contains "awful" text = true)
  /\ 2%nat = count_of "awful"
               (filter_stop_words
                  (flat_map findall_words two_negative_texts))
  /\ (0 < 2)%nat.
Proof.
  destruct (X9_top_negative_words two_negative_texts) as (_ & _ & _ & H).
  apply (H "awful" 2%nat). vm_compute. right. left. reflexivity.
Defined.

Example two_negative_texts_table :
  top_negative_words two_negative_texts
  = [("coffee", 2); ("awful", 2); ("tasted", 1); ("order", 1); ("again", 1)]%nat.
Proof. vm_compute. reflexivity. Qed.

Example regex_skips_mixed_runs :
  findall_words "Great coffee4u, very_good really" = ["really"].
Proof. vm_compute. reflexivity. Qed.

End SentimentMore.

(** ** More on the topic categorizer *)

Section CategorizerMore.
Import PyStr Insights InsightsRun.

Lemma first_match_inv (rules : list (string * list string))
      (text_lower label : string) :
  first_match rules text_lower = label ->
  (exists pre words post,
      rules = (pre ++ (label, words) :: post)%list
      /\ any_in words text_lower = true
      /\ forall rule, In rule pre -> any_in (snd rule) text_lower = false)
  \/ (label = "Other"
      /\ forall rule, In rule rules -> any_in (snd rule) text_lower = false).
Proof.
  revert label. induction rules as [|[l w] rules IH]; intros label;
    cbn [first_match].
  - intros <-. right. split; [reflexivity | intros rule []].
  - destruct (any_in w text_lower) eqn:E.
    + intros <-. left. exists [], w, rules. repeat split; [exact E|].
      intros rule [].
    + intros H. destruct (IH label H)
        as [(pre & words & post & -> & Hhit & Hpre)|[-> Hnone]].
      * left. exists ((l, w) :: pre), words, post. repeat split;
          [exact Hhit|].
        intros rule [<-|Hr]; [exact E | now apply Hpre].
      * right. split; [reflexivity|].
        intros rule [<-|Hr]; [exact E | now apply Hnone].
Qed.

Lemma Other_is_no_rule (words : list string) :
  ~ In ("Other", words) category_rules.
Proof.
  simpl. intros H.
  repeat (destruct H as [H|H]; [discriminate H|]). exact H.
Qed.

(** X10.  The category is Other exactly when no keyword of the
    categorizer occurs in the lowercased text; any other category returned
    is that of a rule with a keyword in the text, all rules tried before it
    having none. *)
Theorem X10_category_explained (review_text : string) :
  (categorize_review_rule_based review_text = "Other"
   <-> forall keyword,
         In keyword (flat_map snd category_rules) ->
         contains keyword (lower review_text) = false)
  /\ (forall label,
        categorize_review_rule_based review_text = label ->
        label <> "Other" ->
        exists pre words post,
          category_rules = (pre ++ (label, words) :: post)%list
          /\ any_in words (lower review_text) = true
          /\ forall rule, In rule pre ->
                          any_in (snd rule) (lower review_text) = false).
Proof.
  rewrite categorize_is_first_match. split; [split|].
  - intros H keyword Hk.
    destruct (first_match_inv _ _ _ H)
      as [(pre & words & post & E & _ & _)|[_ Hnone]].
    + exfalso. apply (Other_is_no_rule words). rewrite E.
      apply in_or_app. right. now left.
    + apply in_flat_map in Hk. destruct Hk as [rule [Hr Hk]].
      specialize (Hnone rule Hr).
      destruct (contains keyword (lower review_text)) eqn:Ec; [|reflexivity].
      assert (any_in (snd rule) (lower review_text) = true); [|congruence].
      apply any_in_spec. now exists keyword.
  - intros H. apply first_match_none. intros rule Hr.
    destruct (any_in (snd rule) (lower review_text)) eqn:E; [|reflexivity].
    apply any_in_spec in E. destruct E as [w [Hw Hc]].
    rewrite H in Hc; [discriminate|].
    apply in_flat_map. now exists rule.
  - intros label H Hne.
    destruct (first_match_inv _ _ _ H) as [Hex|[-> _]];
      [exact Hex | congruence].
Qed.

Lemma X10_category_explained_witness :
  exists pre words post,
    category_rules = (pre ++ ("Taste/Flavor", words) :: post)%list
    /\ any_in words (lower "Too BITTER for me") = true
    /\ forall rule, In rule pre ->
                    any_in (snd rule) (lower "Too BITTER for me") = false.
Proof.
  destruct (X10_category_explained "Too BITTER for me") as [_ H].
  apply (H "Taste/Flavor"); [reflexivity | discriminate].
Defined.

Lemma lower_app (a b : string) : lower (a ++ b) = lower a ++ lower b.
Proof. induction a as [|c a IH]; simpl; [reflexivity | now rewrite IH]. Qed.

Lemma contains_extend (kw s a b : string) :
  contains kw s = true -> contains kw (a ++ s ++ b) = true.
Proof.
  rewrite !contains_spec. intros [x [y ->]].
  exists (a ++ x), (y ++ b). now rewrite !string_app_assoc.
Qed.

Lemma any_in_extend (words : list string) (s a b : string) :
  any_in words s = true -> any_in words (a ++ s ++ b) = true.
Proof.
  rewrite !any_in_spec. intros [w [Hw Hc]]. exists w.
  split; [exact Hw | now apply contains_extend].
Qed.

Lemma index_of_cons_other (l m : string) (labels : list string) :
  l <> m -> index_of m (l :: labels) = S (index_of m labels).
Proof.
  intros H. simpl. destruct (String.eqb l m) eqn:E; [|reflexivity].
  apply String.eqb_eq in E. contradiction.
Qed.

Lemma first_match_priority_monotone (rules : list (string * list string))
      (t1 t2 : string) :
  NoDup (map fst rules ++ ["Other"])%list ->
  (forall rule, In rule rules ->
                any_in (snd rule) t1 = true -> any_in (snd rule) t2 = true) ->
  (index_of (first_match rules t2) (map fst rules ++ ["Other"])%list
   <= index_of (first_match rules t1) (map fst rules ++ ["Other"])%list)%nat.
Proof.
  induction rules as [|[l w] rules IH]; intros Hnd Hmono.
  - simpl. lia.
  - cbn [first_match map fst app] in *.
    inversion Hnd as [|? ? Hl Hrest]; subst.
    destruct (any_in w t2) eqn:E2.
    + simpl. rewrite String.eqb_refl. lia.
    + destruct (any_in w t1) eqn:E1.
      * pose proof (Hmono (l, w) (or_introl eq_refl) E1) as H2.
        cbn [snd] in H2. congruence.
      * rewrite !index_of_cons_other.
        -- apply le_n_S, IH; [exact Hrest|].
           intros rule Hr. apply Hmono. now right.
        -- intros ->. apply Hl, first_match_label.
        -- intros ->. apply Hl, first_match_label.
Qed.

Lemma topic_labels_NoDup : NoDup topic_labels.
Proof.
  unfold topic_labels. simpl.
  repeat (constructor; [simpl; intuition discriminate|]). constructor.
Qed.

(** X11.  Text added before or after a review can only move its category
    towards the front of the order in which the topics are tried; in
    particular a Shipping/Delivery review stays Shipping/Delivery. *)
Theorem X11_added_text_never_lowers_priority (before review_text after : string) :
  (priority (categorize_review_rule_based (before ++ review_text ++ after))
   <= priority (categorize_review_rule_based review_text))%nat
  /\ (categorize_review_rule_based review_text = "Shipping/Delivery" ->
      categorize_review_rule_based (before ++ review_text ++ after)
      = "Shipping/Delivery").
Proof.
  assert (Hmono :
    forall rule, In rule category_rules ->
      any_in (snd rule) (lower review_text) = true ->
      any_in (snd rule) (lower (before ++ review_text ++ after)) = true).
  { intros rule _ H. rewrite !lower_app. now apply any_in_extend. }
  split.
  - rewrite !categorize_is_first_match. unfold priority, topic_labels.
    apply first_match_priority_monotone; [apply topic_labels_NoDup|].
    exact Hmono.
  - intros H. rewrite categorize_is_first_match in H.
    destruct (first_match_inv _ _ _ H)
      as [(pre & words & post & E & Hhit & _)|[Hd _]]; [|discriminate Hd].
    unfold categorize_review_rule_based.
    assert (Hs : any_in shipping_words (lower review_text) = true).
    { destruct pre as [|p pre].
      - injection E as <- _. exact Hhit.
      - exfalso. simpl in E. injection E as _ E.
        assert (Hin : In "Shipping/Delivery"
                         (map fst (pre ++ ("Shipping/Delivery", words) :: post))).
        { rewrite map_app, in_app_iff. right. now left. }
        rewrite <- E in Hin. simpl in Hin.
        repeat (destruct Hin as [Hin|Hin]; [discriminate Hin|]). exact Hin. }
    pose proof (Hmono ("Shipping/Delivery", shipping_words)
                  (or_introl eq_refl) Hs) as H2.
    cbn [snd] in H2. now rewrite H2.
Qed.

Lemma X11_added_text_never_lowers_priority_witness :
  categorize_review_rule_based ("Great taste. " ++ "Arrived LATE" ++ ", sadly")
  = "Shipping/Delivery".
Proof.
  apply (proj2 (X11_added_text_never_lowers_priority
                  "Great taste. " "Arrived LATE" ", sadly")).
  reflexivity.
Defined.

(** The categorizer's keywords of a topic are among the topic report's. *)
Lemma rule_words_in_topic_keywords (topic : string)
      (words keywords : list string) :
  In (topic, words) category_rules ->
  In (topic, keywords) topic_keywords ->
  incl words keywords.
Proof.
  intros Hr Hk. simpl in Hr, Hk.
  repeat (destruct Hr as [Hr|Hr];
          [injection Hr as <- <-;
           repeat (destruct Hk as [Hk|Hk];
                   [first [discriminate Hk
                          |injection Hk as <-;
                           intros w Hw; simpl in Hw; simpl; tauto]|]);
           destruct Hk|]).
  destruct Hr.
Qed.

Lemma filter_length_le {A : Type} (p q : A -> bool) (l : list A) :
  (forall x, In x l -> p x = true -> q x = true) ->
  (List.length (filter p l) <= List.length (filter q l))%nat.
Proof.
  induction l as [|x l IH]; intros H; simpl; [lia|].
  assert (IH' := IH (fun y Hy => H y (or_intror Hy))).
  destruct (p x) eqn:Ep.
  - rewrite (H x (or_introl eq_refl) Ep). simpl. lia.
  - destruct (q x); simpl; lia.
Qed.

(** X12.  For every topic of the topic report, the reviews the
    categorizer assigns to that topic are all counted for it by the
    report: the number of reviews categorized as the topic is at most the
    report's match count. *)
Theorem X12_categorized_reviews_are_counted (df : list review)
        (topic : string) (keywords : list string) :
  In (topic, keywords) topic_keywords ->
  (List.length
     (filter (fun r => String.eqb (categorize_review_rule_based (Text r)) topic)
             df)
   <= matching keywords (map Text df))%nat.
Proof.
  intros Hk. unfold matching.
  rewrite <- (length_map Text (filter _ df)).
  assert (E : map Text
                (filter (fun r => String.eqb
                                    (categorize_review_rule_based (Text r))
                                    topic) df)
              = filter (fun t => String.eqb (categorize_review_rule_based t)
                                            topic)
                       (map Text df)).
  { induction df as [|r df IH]; simpl; [reflexivity|].
    destruct (String.eqb (categorize_review_rule_based (Text r)) topic);
      simpl; now rewrite IH. }
  rewrite E. apply filter_length_le. intros text _ Hc.
  apply String.eqb_eq in Hc.
  assert (Hne : topic <> "Other").
  { intros ->. simpl in Hk.
    repeat (destruct Hk as [Hk|Hk]; [discriminate Hk|]). exact Hk. }
  rewrite categorize_is_first_match in Hc.
  destruct (first_match_inv _ _ _ Hc)
    as [(pre & words & post & Er & Hhit & _)|[Ho _]]; [|contradiction].
  apply (any_in_incl words); [|exact Hhit].
  apply (rule_words_in_topic_keywords topic); [|exact Hk].
  rewrite Er. apply in_or_app. right. now left.
Qed.

Lemma X12_categorized_reviews_are_counted_witness :
  (List.length
     (filter (fun r => String.eqb (categorize_review_rule_based (Text r))
                                  "Product Quality")
             three_complaints)
   <= matching ["quality"; "defective"; "broke"; "broken"; "damaged"; "poor";
                "cheap"; "terrible"; "awful"; "bad"]
               (map Text three_complaints))%nat.
Proof.
  apply (X12_categorized_reviews_are_counted three_complaints
           "Product Quality").
  simpl. tauto.
Defined.

End CategorizerMore.

(** ** More on the topic report *)

Section TopicReportMore.
Import PyStr PyFormat Insights.

Lemma matching_le_total (keywords texts : list string) :
  (matching keywords texts <= List.length texts)%nat.
Proof. unfold matching. apply subseq_length, subseq_filter. Qed.

Lemma quotient_bounds (count total : nat) :
  (0 < count)%nat -> (count <= total)%nat ->
  (0 < inject_Z (Z.of_nat count) / inject_Z (Z.of_nat total)
   /\ inject_Z (Z.of_nat count) / inject_Z (Z.of_nat total) <= 1)%Q.
Proof.
  intros Hc Ht.
  assert (Hn : (0 < inject_Z (Z.of_nat total))%Q).
  { change 0%Q with (inject_Z 0). rewrite <- Zlt_Qlt. lia. }
  split.
  - apply Qlt_shift_div_l; [exact Hn|]. rewrite Qmult_0_l.
    change 0%Q with (inject_Z 0). rewrite <- Zlt_Qlt. lia.
  - apply Qle_shift_div_r; [exact Hn|]. rewrite Qmult_1_l.
    rewrite <- Zle_Qle. lia.
Qed.

Lemma percentage_bounds (count total : nat) :
  (0 < count)%nat -> (count <= total)%nat ->
  (0 < percentage count total /\ percentage count total <= 100)%Q.
Proof.
  intros Hc Ht. unfold percentage, Binary64.mul, Binary64.div.
  destruct (quotient_bounds count total Hc Ht) as [Hlow Hup].
  set (x := (inject_Z (Z.of_nat count) / inject_Z (Z.of_nat total))%Q) in *.
  pose proof (round_positive x Hlow) as Hs.
  pose proof (round_le_int x 1 Hlow ltac:(reflexivity) Hup) as Hs1.
  set (s := Binary64.round x) in *.
  change (inject_Z 1) with 1%Q in Hs1.
  assert (Hp : (0 < s * 100)%Q) by lra.
  split; [now apply round_positive|].
  apply (round_le_int (s * 100)%Q 100 Hp); [reflexivity|].
  change (inject_Z 100) with 100%Q. lra.
Qed.

(** Dropping entries of a table keeps its keys distinct. *)
Lemma distinct_keys_filter {K V : Type} (key : V -> K) (keep : V -> bool)
      (table : list V) (Hkeys : NoDup (map key table)) :
  NoDup (map key (filter keep table)).
Proof.
  induction table as [|v table IH]; simpl; [constructor|].
  simpl in Hkeys. inversion Hkeys as [|? ? Hv Hrest]; subst.
  destruct (keep v); simpl; [|now apply IH].
  constructor; [|now apply IH].
  intros Hin. apply Hv. apply in_map_iff in Hin.
  destruct Hin as [w [E Hw]]. apply filter_In in Hw.
  apply in_map_iff. exists w. tauto.
Qed.

Lemma top_topics_NoDup (texts : list string) :
  NoDup (map fst (top_topics texts)).
Proof.
  unfold top_topics. rewrite <- firstn_map. apply NoDup_firstn.
  eapply Permutation_NoDup.
  - apply Permutation_sym, Permutation_map, sorted_desc_perm.
  - unfold topic_percentages. rewrite map_map. simpl.
    apply distinct_keys_filter. rewrite count_topics_spec.
    unfold with_counts. rewrite map_map. simpl.
    repeat (constructor; [simpl; intuition discriminate|]). constructor.
Qed.

(** X13.  No topic appears twice in the report, and every percentage in
    it is above 0 and at most 100. *)
Theorem X13_report_topics_distinct_percentages_bounded
        (df_negative : list review) :
  NoDup (map fst (top_topics (map Text df_negative)))
  /\ (forall topic pct,
        In (topic, pct) (top_topics (map Text df_negative)) ->
        (0 < pct /\ pct <= 100)%Q).
Proof.
  split; [apply top_topics_NoDup|].
  intros topic pct H. apply top_topics_entry in H.
  destruct H as [keywords (_ & Hpos & ->)].
  apply percentage_bounds; [exact Hpos | apply matching_le_total].
Qed.

Lemma X13_report_topics_distinct_percentages_bounded_witness :
  (0 < percentage 2 3 /\ percentage 2 3 <= 100)%Q.
Proof.
  apply (proj2 (X13_report_topics_distinct_percentages_bounded
                  three_complaints) "Product Quality").
  vm_compute. left. reflexivity.
Defined.

Lemma filter_length_perm {A : Type} (p : A -> bool) (l l' : list A) :
  Permutation l l' ->
  List.length (filter p l) = List.length (filter p l').
Proof.
  induction 1 as [|x l l' _ IH|x y l|l l' l'' _ IH1 _ IH2]; simpl.
  - reflexivity.
  - destruct (p x); simpl; now rewrite IH.
  - destruct (p x), (p y); reflexivity.
  - now rewrite IH1.
Qed.

Lemma top_topics_same_counts (texts texts' : list string) :
  List.length texts = List.length texts' ->
  (forall keywords, matching keywords texts = matching keywords texts') ->
  top_topics texts = top_topics texts'.
Proof.
  intros Hl Hm. unfold top_topics.
  rewrite !count_topics_spec, Hl.
  now rewrite (with_counts_ext _ _ Hm).
Qed.

(** X14.  The topic report does not depend on the order of the reviews. *)
Theorem X14_report_ignores_review_order (df df' : list review) :
  Permutation (map Text df) (map Text df') ->
  extract_topics_rule_based df = extract_topics_rule_based df'.
Proof.
  intros H. unfold extract_topics_rule_based.
  rewrite (top_topics_same_counts (map Text df) (map Text df'));
    [reflexivity | now apply Permutation_length |].
  intros keywords. unfold matching. now apply filter_length_perm.
Qed.

Lemma X14_report_ignores_review_order_witness :
  extract_topics_rule_based three_complaints
  = extract_topics_rule_based (rev three_complaints).
Proof.
  apply (X14_report_ignores_review_order three_complaints
           (rev three_complaints)).
  rewrite map_rev. apply Permutation_rev.
Defined.

(** X15.  The topic report does not depend on the case of the reviews:
    lowercasing every text gives the same report. *)
Theorem X15_report_ignores_case (df : list review) :
  extract_topics_rule_based
    (map (fun r => Review (lower (Text r)) (Score r) (sentiment_category r)
                          (ai_category r)) df)
  = extract_topics_rule_based df.
Proof.
  unfold extract_topics_rule_based. rewrite map_map. simpl.
  rewrite <- (map_map Text lower).
  rewrite (top_topics_same_counts (map lower (map Text df)) (map Text df));
    [reflexivity | apply length_map |].
  intros keywords. unfold matching.
  induction (map Text df) as [|t l IH]; simpl; [reflexivity|].
  rewrite lower_idem. destruct (any_in keywords (lower t)); simpl;
    now rewrite IH.
Qed.

End TopicReportMore.

(** ** The summary and the whole run of stage 3 *)

Section RunFacts.
Import PyStr PyFormat Binary64 Insights InsightsRun SentimentReport.

Lemma has_column_assign (name : string) (df : frame) :
  has_column name (assign_ai_category df)
  = has_column name df || String.eqb name "ai_category".
Proof.
  unfold assign_ai_category, has_column. cbn [columns].
  destruct (existsb (String.eqb "ai_category") (columns df)) eqn:E.
  - destruct (String.eqb name "ai_category") eqn:En;
      [|now rewrite orb_false_r].
    apply String.eqb_eq in En. subst name. now rewrite E.
  - rewrite existsb_app. simpl. now rewrite orb_false_r.
Qed.

Lemma issues_text_top_issues (df : frame) :
  has_column "ai_category" df = true ->
  issues_text df
  = if (0 <? List.length (filter is_negative (records df)))%nat
    then join ", "
           (map (issue_item (List.length (filter is_negative (records df))))
                (top_issues df))
    else fallback_issues.
Proof. intros H. unfold issues_text. now rewrite H. Qed.

Lemma categorize_record_negative (l : list review) :
  filter is_negative (map categorize_record l)
  = map categorize_record (filter is_negative l).
Proof.
  induction l as [|r l IH]; [reflexivity|].
  cbn [map filter].
  change (is_negative (categorize_record r)) with (is_negative r).
  destruct (is_negative r); cbn [map]; now rewrite IH.
Qed.

Lemma summary_text (df : frame) (summary : string) :
  generate_executive_summary_template df = inr summary ->
  summary = para1 df ++ newline ++ newline ++ para2 (issues_text df)
            ++ newline ++ newline ++ para3.
Proof.
  unfold generate_executive_summary_template.
  destruct (has_column "sentiment_category" df); cbn [negb]; [|discriminate].
  destruct (has_column "Score" df); cbn [negb]; [|discriminate].
  intros H. now injection H.
Qed.

Lemma summary_returns (df : frame) :
  has_column "sentiment_category" df = true ->
  has_column "Score" df = true ->
  exists summary, generate_executive_summary_template df = inr summary.
Proof.
  intros Hs Hc. unfold generate_executive_summary_template.
  rewrite Hs, Hc. cbn [negb]. eexists. reflexivity.
Qed.

Lemma summary_raises (df : frame) (e : exn) :
  generate_executive_summary_template df = inl e ->
  (e = KeyError "sentiment_category"
   /\ has_column "sentiment_category" df = false)
  \/ (e = KeyError "Score"
      /\ has_column "sentiment_category" df = true
      /\ has_column "Score" df = false).
Proof.
  unfold generate_executive_summary_template.
  destruct (has_column "sentiment_category" df); cbn [negb].
  - destruct (has_column "Score" df); cbn [negb]; [discriminate|].
    intros H. injection H as <-. right. tauto.
  - intros H. injection H as <-. left. tauto.
Qed.

Lemma value_counts_spec (values : list string) :
  NoDup (map fst (value_counts values))
  /\ (forall w c, In (w, c) (value_counts values) ->
                  c = count_of w values /\ (0 < c)%nat)
  /\ (forall w, In w (map fst (value_counts values)) -> In w values)
  /\ list_sum (map snd (value_counts values)) = List.length values
  /\ StronglySorted (fun a b => (snd b <= snd a)%nat) (value_counts values).
Proof. apply sorted_counter_spec. Qed.

Lemma count_of_le_length (value : string) (values : list string) :
  (count_of value values <= List.length values)%nat.
Proof. unfold count_of. apply subseq_length, subseq_filter. Qed.

Lemma value_counts_nonempty (values : list string) :
  values <> [] -> value_counts values <> [].
Proof.
  intros Hne E. destruct (value_counts_spec values) as (_ & _ & _ & Hsum & _).
  rewrite E in Hsum. simpl in Hsum. destruct values; [congruence|].
  discriminate Hsum.
Qed.

Lemma join_head (sep x : string) (rest : list string) :
  exists tail, join sep (x :: rest) = x ++ tail.
Proof.
  destruct rest as [|y rest].
  - exists "". simpl. now rewrite string_app_nil_r.
  - exists (sep ++ join sep (y :: rest)). reflexivity.
Qed.

(** No issues sentence built from categories of the categorizer reads
    like the fallback phrase: the labels start with a capital letter. *)
Lemma issue_item_not_fallback (n_negative : nat) (entry : string * nat)
      (rest : list string) :
  In (fst entry) topic_labels ->
  join ", " (issue_item n_negative entry :: rest) <> fallback_issues.
Proof.
  intros Hl. destruct (join_head ", " (issue_item n_negative entry) rest)
    as [tail ->].
  destruct entry as [cat count]. unfold issue_item.
  cbn [fst] in Hl. unfold topic_labels in Hl. simpl in Hl.
  repeat (destruct Hl as [<-|Hl]; [discriminate|]). destruct Hl.
Qed.

(** What [string_rows] returns holds the cells of the rows read. *)
Lemma string_rows_cells (read : list read_review) (rows : list review) :
  string_rows read = Some rows ->
  map read_Text read = map (fun r => Some (Text r)) rows
  /\ map read_Score read = map Score rows
  /\ map read_sentiment_category read = map sentiment_category rows.
Proof.
  revert rows. induction read as [|r read IH]; intros rows; cbn [string_rows].
  - intros H. injection H as <-. repeat split.
  - destruct (read_Text r) as [t|] eqn:Et; [|discriminate].
    destruct (string_rows read) as [l|]; [|discriminate].
    intros H. injection H as <-.
    destruct (IH l eq_refl) as (H1 & H2 & H3).
    cbn [map Text Score sentiment_category].
    now rewrite Et, H1, H2, H3.
Qed.

Lemma string_rows_none (read : list read_review) :
  string_rows read = None <-> In None (map read_Text read).
Proof.
  induction read as [|r read IH]; cbn [string_rows map].
  - split; [discriminate | intros []].
  - destruct (read_Text r) as [t|].
    + destruct (string_rows read) as [l|].
      * split; [discriminate|]. intros [H|H]; [discriminate H|].
        apply IH in H. discriminate H.
      * split; [|reflexivity]. intros _. right. now apply IH.
    + split; [|reflexivity]. intros _. now left.
Qed.

(** X16.  A completed run read a frame whose [Text] cells are all
    strings, and returns it with the column [ai_category] set, for every
    review, to the category of its text, one of the seven labels; texts,
    scores, sentiment categories, the number and the order of the reviews
    are unchanged.  The topic report is written exactly when there is a
    Negative review, and is the report of the Negative reviews.  The
    summary is the one of the categorized frame, and its issues sentence
    is the fixed fallback phrase exactly when there is no Negative
    review. *)
Theorem X16_completed_run (df : read_frame) (out : outputs) :
  run_ai_analysis_free df = inr out ->
  map read_Text (read_records df)
  = map (fun r => Some (Text r)) (records (final out))
  /\ map read_Score (read_records df) = map Score (records (final out))
  /\ map read_sentiment_category (read_records df)
     = map sentiment_category (records (final out))
  /\ map ai_category (records (final out))
     = map categorize_review_rule_based (map Text (records (final out)))
  /\ Forall (fun r => In (ai_category r) topic_labels) (records (final out))
  /\ has_column "ai_category" (final out) = true
  /\ topics_analysis out
     = (if (0 <? List.length (filter is_negative (records (final out))))%nat
        then Some (extract_topics_rule_based
                     (filter is_negative (records (final out))))
        else None)
  /\ generate_executive_summary_template (final out)
     = inr (executive_summary out)
  /\ (issues_text (final out) = fallback_issues
      <-> filter is_negative (records (final out)) = []).
Proof.
  unfold run_ai_analysis_free.
  destruct (read_has_column "sentiment_category" df) eqn:Hs; cbn [negb];
    [|discriminate].
  destruct (read_has_column "Text" df) eqn:Ht; cbn [negb]; [|discriminate].
  destruct (string_rows (read_records df)) as [rows|] eqn:Hrows;
    [|discriminate].
  set (f := Frame (read_columns df) rows).
  destruct (generate_executive_summary_template (assign_ai_category f))
    as [[column]|summary] eqn:Hg; [discriminate|].
  intros H. injection H as <-. cbn [final topics_analysis executive_summary].
  destruct (string_rows_cells _ _ Hrows) as (Hc1 & Hc2 & Hc3).
  assert (Hai : has_column "ai_category" (assign_ai_category f) = true).
  { rewrite has_column_assign. apply orb_true_r. }
  assert (Hlab : Forall (fun r => In (ai_category r) topic_labels)
                        (records (assign_ai_category f))).
  { apply Forall_forall. intros r Hr.
    change (records (assign_ai_category f))
      with (map categorize_record rows) in Hr.
    apply in_map_iff in Hr.
    destruct Hr as [r0 [<- _]]. cbn [categorize_record ai_category].
    rewrite categorize_is_first_match.
    apply (first_match_label category_rules). }
  change (records (assign_ai_category f)) with (map categorize_record rows)
    in *.
  split; [|split; [|split; [|split; [|split; [exact Hlab|]]]]].
  1-4: rewrite ?Hc1, ?Hc2, ?Hc3, ?map_map; reflexivity.
  split; [exact Hai|]. split; [|split; [exact Hg|]].
  - rewrite categorize_record_negative, length_map.
    destruct (filter is_negative rows) eqn:En; [reflexivity|].
    cbn [List.length Nat.ltb Nat.leb]. f_equal.
    unfold extract_topics_rule_based. now rewrite map_map.
  - rewrite (issues_text_top_issues _ Hai).
    change (records (assign_ai_category f)) with (map categorize_record rows).
    rewrite categorize_record_negative, length_map.
    destruct (filter is_negative rows) as [|r neg] eqn:En.
    + split; reflexivity.
    + cbn [List.length Nat.ltb Nat.leb]. split; [|discriminate].
      intros Hj. exfalso.
      assert (Hne : value_counts
                      (map ai_category (map categorize_record (r :: neg)))
                    <> []).
      { apply value_counts_nonempty. discriminate. }
      unfold top_issues in Hj.
      change (records (assign_ai_category f))
        with (map categorize_record rows) in Hj.
      rewrite categorize_record_negative, En in Hj.
      destruct (value_counts
                  (map ai_category (map categorize_record (r :: neg))))
        as [|entry table] eqn:Ev; [congruence|].
      cbn [firstn map] in Hj. revert Hj. apply issue_item_not_fallback.
      destruct (value_counts_spec
                  (map ai_category (map categorize_record (r :: neg))))
        as (_ & _ & Hkeys & _).
      assert (Hin : In (fst entry)
                       (map ai_category (map categorize_record (r :: neg)))).
      { apply Hkeys. rewrite Ev. now left. }
      rewrite map_map in Hin. apply in_map_iff in Hin.
      destruct Hin as [r0 [<- _]]. cbn [categorize_record ai_category].
      rewrite categorize_is_first_match.
      apply (first_match_label category_rules).
Qed.

Lemma X16_completed_run_witness :
  exists out,
    run_ai_analysis_free
      (as_read (Frame ["Text"; "Score"; "sentiment_category"]
                      three_complaints))
    = inr out
    /\ map ai_category (records (final out))
       = map categorize_review_rule_based (map Text (records (final out)))
    /\ has_column "ai_category" (final out) = true.
Proof.
  destruct (run_ai_analysis_free
              (as_read (Frame ["Text"; "Score"; "sentiment_category"]
                              three_complaints)))
    as [e|out] eqn:E; [vm_compute in E; discriminate E|].
  exists out. split; [reflexivity|].
  destruct (X16_completed_run _ _ E) as (_ & _ & _ & Ha & _ & Hc & _).
  split; [exact Ha | exact Hc].
Defined.

Example run_on_three_complaints :
  match run_ai_analysis_free
          (as_read (Frame ["Text"; "Score"; "sentiment_category"]
                          three_complaints))
  with
  | inr out =>
      map ai_category (records (final out))
      = ["Packaging"; "Product Quality"; "Other"]
      /\ columns (final out)
         = ["Text"; "Score"; "sentiment_category"; "ai_category"]
  | inl _ => False
  end.
Proof. vm_compute. split; reflexivity. Qed.

(** X17.  A run stops without returning anything when the frame lacks the
    column [sentiment_category] ([KeyError]), else when it lacks the
    column [Text] ([KeyError]), else when some [Text] cell is not a string
    ([AttributeError]), else when it lacks the column [Score]
    ([KeyError]). *)
Theorem X17_what_stops_the_run (df : read_frame) :
  (read_has_column "sentiment_category" df = false ->
   run_ai_analysis_free df = inl (RunKeyError "sentiment_category"))
  /\ (read_has_column "sentiment_category" df = true ->
      read_has_column "Text" df = false ->
      run_ai_analysis_free df = inl (RunKeyError "Text"))
  /\ (read_has_column "sentiment_category" df = true ->
      read_has_column "Text" df = true ->
      In None (map read_Text (read_records df)) ->
      run_ai_analysis_free df = inl RunAttributeError)
  /\ (read_has_column "sentiment_category" df = true ->
      read_has_column "Text" df = true ->
      ~ In None (map read_Text (read_records df)) ->
      read_has_column "Score" df = false ->
      run_ai_analysis_free df = inl (RunKeyError "Score")).
Proof.
  assert (Hcol : forall name rows,
             String.eqb name "ai_category" = false ->
             has_column name
               (assign_ai_category (Frame (read_columns df) rows))
             = read_has_column name df).
  { intros name rows Hn. rewrite has_column_assign, Hn. apply orb_false_r. }
  unfold run_ai_analysis_free.
  destruct (read_has_column "sentiment_category" df) eqn:Hs; cbn [negb].
  2:{ repeat split; discriminate. }
  destruct (read_has_column "Text" df) eqn:Ht; cbn [negb].
  2:{ repeat split; discriminate. }
  destruct (string_rows (read_records df)) as [rows|] eqn:Hrows.
  - assert (Hnone : ~ In None (map read_Text (read_records df))).
    { intros Hin. apply string_rows_none in Hin. congruence. }
    unfold generate_executive_summary_template.
    rewrite !Hcol, Hs by reflexivity. cbn [negb].
    destruct (read_has_column "Score" df) eqn:Hc; cbn [negb].
    + repeat split; try discriminate; contradiction.
    + repeat split; try discriminate; contradiction.
  - assert (Hin : In None (map read_Text (read_records df))).
    { now apply string_rows_none. }
    repeat split; try discriminate; contradiction.
Qed.

Lemma X17_what_stops_the_run_witness :
  run_ai_analysis_free
    (ReadFrame ["Text"; "Score"; "sentiment_category"] [no_text_row])
  = inl RunAttributeError
  /\ run_ai_analysis_free
       (as_read (Frame ["Text"; "sentiment_category"] three_complaints))
     = inl (RunKeyError "Score").
Proof.
  split.
  - apply (X17_what_stops_the_run
             (ReadFrame ["Text"; "Score"; "sentiment_category"]
                        [no_text_row])); try reflexivity.
    simpl. now left.
  - apply (X17_what_stops_the_run
             (as_read (Frame ["Text"; "sentiment_category"]
                             three_complaints))); try reflexivity.
    simpl. intros [H|[H|[H|[]]]]; discriminate H.
Defined.



Lemma count_of_three_labels (sentiments : list string) :
  Forall (fun s => In s ["Positive"; "Negative"; "Neutral"]) sentiments ->
  (count_of "Positive" sentiments + count_of "Negative" sentiments
   + count_of "Neutral" sentiments = List.length sentiments)%nat.
Proof.
  unfold count_of. induction 1 as [|s l Hs _ IH]; [reflexivity|].
  simpl in Hs. destruct Hs as [<-|[<-|[<-|[]]]]; simpl in *; lia.
Qed.

Lemma format_fixed_whole (x : Q) :
  (0 <= Qnum x)%Z ->
  format_fixed 0 x = str_nat (Z.to_nat (printed_whole x)).
Proof.
  intros Hx. unfold format_fixed, printed_whole.
  change (10 ^ Z.of_nat 0)%Z with 1%Z. rewrite Z.mul_1_r, Z.div_1_r.
  destruct (Z.ltb_spec (Qnum x) 0) as [?|_]; [lia | reflexivity].
Qed.

(** The number printed is within one half of the float. *)
Lemma printed_whole_near (x : Q) :
  (0 <= x)%Q ->
  (inject_Z (printed_whole x) - (1 # 2) <= x
   /\ x <= inject_Z (printed_whole x) + (1 # 2))%Q.
Proof.
  intros Hx. destruct x as [xn xd]. unfold Qle in Hx. simpl in Hx.
  unfold printed_whole. cbn [Qnum Qden].
  rewrite Z.abs_eq by lia.
  pose proof (round_half_even_nearest xn (Zpos xd) ltac:(lia)) as Hn.
  apply Z.abs_le in Hn.
  set (r := round_half_even xn (Zpos xd)) in *.
  unfold Qle. cbn [Qnum Qden Qplus Qminus Qopp inject_Z].
  rewrite ?Pos2Z.inj_mul. split; nia.
Qed.

(** One percentage of the summary, against the exact share. *)
Lemma summary_percentage_bounds (value : string) (values : list string) :
  values <> [] ->
  let q := (inject_Z (Z.of_nat (count_of value values))
            / inject_Z (Z.of_nat (List.length values)))%Q in
  let pct := Binary64.mul (share value values) 100 in
  (0 <= pct /\ pct <= 100
   /\ 100 * q * (1 - unit_roundoff) * (1 - unit_roundoff) <= pct
   /\ pct <= 100 * q * (1 + unit_roundoff) * (1 + unit_roundoff))%Q.
Proof.
  intros Hne q pct. unfold pct, share, Binary64.mul, Binary64.div.
  assert (Hlen : (0 < List.length values)%nat).
  { destruct values; [congruence | simpl; lia]. }
  destruct (Nat.eqb_spec (count_of value values) 0) as [E|E].
  - assert (Hq : (q == 0)%Q).
    { unfold q. rewrite E. simpl. unfold Qdiv. apply Qmult_0_l. }
    rewrite (round_zero (0 * 100)%Q) by reflexivity.
    unfold unit_roundoff. rewrite Hq. repeat split; try lra; discriminate.
  - destruct (quotient_bounds (count_of value values) (List.length values))
      as [Hlow Hup]; [lia | apply count_of_le_length |].
    fold q in Hlow, Hup |- *.
    pose proof (round_positive q Hlow) as Hs.
    pose proof (round_le_int q 1 Hlow ltac:(reflexivity) Hup) as Hs1.
    destruct (round_error q Hlow) as [He1 He2].
    set (s := Binary64.round q) in *.
    change (inject_Z 1) with 1%Q in Hs1.
    assert (Hp : (0 < s * 100)%Q) by lra.
    pose proof (round_positive _ Hp) as Hr.
    pose proof (round_le_int (s * 100)%Q 100 Hp ltac:(reflexivity)) as Hr1.
    change (inject_Z 100) with 100%Q in Hr1.
    destruct (round_error _ Hp) as [Hf1 Hf2].
    set (p := Binary64.round (s * 100)) in *.
    unfold unit_roundoff in *.
    repeat split; try lra; nra.
Qed.

(** X19.  For a non-empty frame whose sentiment categories are all among
    Positive, Negative and Neutral (as the sentiment stage produces them),
    each of the three percentages of the summary lies between 0 and 100,
    their sum is 100 up to the rounding of the floats (less than
    [10 ^ -12]), and the three whole numbers printed add up to 99, 100 or
    101. *)
Theorem X19_summary_percentages_near_100 (df : frame) :
  records df <> [] ->
  Forall (fun r => In (sentiment_category r)
                      ["Positive"; "Negative"; "Neutral"])
         (records df) ->
  (forall label,
      (0 <= Binary64.mul
              (share label (map sentiment_category (records df))) 100
       /\ Binary64.mul (share label (map sentiment_category (records df))) 100
          <= 100)%Q
      /\ format_fixed 0
           (Binary64.mul
              (share label (map sentiment_category (records df))) 100)
         = str_nat
             (Z.to_nat
                (printed_whole
                   (Binary64.mul
                      (share label (map sentiment_category (records df)))
                      100))))
  /\ (100 - (1 # 1000000000000)
      <= Binary64.mul
           (share "Positive" (map sentiment_category (records df))) 100
         + Binary64.mul
             (share "Negative" (map sentiment_category (records df))) 100
         + Binary64.mul
             (share "Neutral" (map sentiment_category (records df))) 100
      <= 100 + (1 # 1000000000000))%Q
  /\ (99 <= printed_whole
              (Binary64.mul
                 (share "Positive" (map sentiment_category (records df))) 100)
            + printed_whole
                (Binary64.mul
                   (share "Negative" (map sentiment_category (records df)))
                   100)
            + printed_whole
                (Binary64.mul
                   (share "Neutral" (map sentiment_category (records df)))
                   100)
      <= 101)%Z.
Proof.
  intros Hne Hlab.
  set (s := map sentiment_category (records df)).
  assert (Hs : Forall (fun x => In x ["Positive"; "Negative"; "Neutral"]) s).
  { unfold s. apply Forall_forall. intros x Hx. apply in_map_iff in Hx.
    destruct Hx as [r [<- Hr]]. rewrite Forall_forall in Hlab.
    now apply Hlab. }
  assert (Hsne : s <> []).
  { unfold s. destruct (records df); [congruence | discriminate]. }
  pose proof (count_of_three_labels s Hs) as Hsum.
  assert (Hlen : (0 < List.length s)%nat).
  { destruct s; [congruence | simpl; lia]. }
  assert (Hn : ~ (inject_Z (Z.of_nat (List.length s)) == 0)%Q).
  { intros E. unfold Qeq in E. simpl in E. lia. }
  assert (Hq : (inject_Z (Z.of_nat (count_of "Positive" s))
                / inject_Z (Z.of_nat (List.length s))
                + inject_Z (Z.of_nat (count_of "Negative" s))
                  / inject_Z (Z.of_nat (List.length s))
                + inject_Z (Z.of_nat (count_of "Neutral" s))
                  / inject_Z (Z.of_nat (List.length s))
                == 1)%Q).
  { assert (Ht : (inject_Z (Z.of_nat (count_of "Positive" s))
                  + inject_Z (Z.of_nat (count_of "Negative" s))
                  + inject_Z (Z.of_nat (count_of "Neutral" s))
                  == inject_Z (Z.of_nat (List.length s)))%Q).
    { rewrite <- !inject_Z_plus, <- !Nat2Z.inj_add, Hsum. reflexivity. }
    set (n := inject_Z (Z.of_nat (List.length s))) in *.
    set (a := inject_Z (Z.of_nat (count_of "Positive" s))) in *.
    set (b := inject_Z (Z.of_nat (count_of "Negative" s))) in *.
    set (c := inject_Z (Z.of_nat (count_of "Neutral" s))) in *.
    transitivity ((a + b + c) / n)%Q; [field; exact Hn|].
    rewrite Ht. field. exact Hn. }
  pose proof (summary_percentage_bounds "Positive" s Hsne)
    as (HP0 & HP1 & HP2 & HP3).
  pose proof (summary_percentage_bounds "Negative" s Hsne)
    as (HN0 & HN1 & HN2 & HN3).
  pose proof (summary_percentage_bounds "Neutral" s Hsne)
    as (HU0 & HU1 & HU2 & HU3).
  split; [|split].
  - intros label.
    pose proof (summary_percentage_bounds label s Hsne) as (H0 & H1 & _).
    split; [split; assumption|].
    apply format_fixed_whole. unfold Qle in H0. simpl in H0. lia.
  - unfold unit_roundoff in *.
    set (qp := (inject_Z (Z.of_nat (count_of "Positive" s))
                / inject_Z (Z.of_nat (List.length s)))%Q) in *.
    set (qn := (inject_Z (Z.of_nat (count_of "Negative" s))
                / inject_Z (Z.of_nat (List.length s)))%Q) in *.
    set (qu := (inject_Z (Z.of_nat (count_of "Neutral" s))
                / inject_Z (Z.of_nat (List.length s)))%Q) in *.
    split; lra.
  - pose proof (printed_whole_near _ HP0) as [HPa HPb].
    pose proof (printed_whole_near _ HN0) as [HNa HNb].
    pose proof (printed_whole_near _ HU0) as [HUa HUb].
    unfold unit_roundoff in *.
    set (qp := (inject_Z (Z.of_nat (count_of "Positive" s))
                / inject_Z (Z.of_nat (List.length s)))%Q) in *.
    set (qn := (inject_Z (Z.of_nat (count_of "Negative" s))
                / inject_Z (Z.of_nat (List.length s)))%Q) in *.
    set (qu := (inject_Z (Z.of_nat (count_of "Neutral" s))
                / inject_Z (Z.of_nat (List.length s)))%Q) in *.
    set (rp := printed_whole
                 (Binary64.mul (share "Positive" s) 100)) in *.
    set (rn := printed_whole
                 (Binary64.mul (share "Negative" s) 100)) in *.
    set (ru := printed_whole
                 (Binary64.mul (share "Neutral" s) 100)) in *.
    assert (Hlo : (inject_Z 98 < inject_Z (rp + rn + ru))%Q).
    { rewrite !inject_Z_plus. change (inject_Z 98) with 98%Q. lra. }
    assert (Hhi : (inject_Z (rp + rn + ru) < inject_Z 102)%Q).
    { rewrite !inject_Z_plus. change (inject_Z 102) with 102%Q. lra. }
    rewrite <- Zlt_Qlt in Hlo, Hhi. lia.
Qed.

Lemma X19_summary_percentages_near_100_witness :
  (99 <= printed_whole
           (Binary64.mul
              (share "Positive" (map sentiment_category (records ten_reviews)))
              100)
         + printed_whole
             (Binary64.mul
                (share "Negative"
                       (map sentiment_category (records ten_reviews))) 100)
         + printed_whole
             (Binary64.mul
                (share "Neutral"
                       (map sentiment_category (records ten_reviews))) 100)
   <= 101)%Z.
Proof.
  apply (X19_summary_percentages_near_100 ten_reviews).
  - discriminate.
  - simpl. repeat constructor; simpl; tauto.
Defined.

(** Three reviews, one of each sentiment: each share prints as 33 and the
    printed numbers add up to 99. *)
Example one_of_each_prints_99 :
  format_fixed 0 (Binary64.mul (share "Positive"
                                  ["Positive"; "Negative"; "Neutral"]) 100)
  = "33".
Proof. vm_compute. reflexivity. Qed.

End RunFacts.

(** ** Which topics reach the report *)

Section TopicReportCoverage.
Import PyStr PyFormat Insights.

Lemma sorted_app_rel {A : Type} (R : A -> A -> Prop) (front back : list A) :
  StronglySorted R (front ++ back)%list ->
  forall x y, In x front -> In y back -> R x y.
Proof.
  induction front as [|a front IH]; simpl; intros Hs x y Hx Hy; [destruct Hx|].
  inversion Hs as [|? ? Hrest Hall]; subst.
  destruct Hx as [<-|Hx]; [|now apply IH].
  rewrite Forall_forall in Hall. apply Hall, in_or_app. now right.
Qed.

Lemma topic_entry_listed (texts : list string) (topic : string)
      (keywords : list string) :
  In (topic, keywords) topic_keywords ->
  (0 < matching keywords texts)%nat ->
  In (topic, percentage (matching keywords texts) (List.length texts))
     (sorted_desc (fun y x => Qle_bool (snd y) (snd x))
        (topic_percentages (List.length texts) (count_topics texts))).
Proof.
  intros Hk Hpos.
  apply (Permutation_in _ (Permutation_sym (sorted_desc_perm _ _))).
  unfold topic_percentages.
  apply (in_map (fun tc => (fst tc, percentage (snd tc) (List.length texts)))
                _ (topic, matching keywords texts)).
  apply filter_In. split; [|now apply Nat.ltb_lt].
  rewrite count_topics_spec. unfold with_counts.
  apply (in_map (fun tk => (fst tk, matching (snd tk) texts))
                _ (topic, keywords)).
  exact Hk.
Qed.

(** X20.  The report holds the most frequent topics: a topic with at
    least one matching review is in the report, unless the report already
    has five topics, each with a percentage at least as high. *)
Theorem X20_report_holds_most_frequent_topics
        (df_negative : list review) (topic : string)
        (keywords : list string) :
  In (topic, keywords) topic_keywords ->
  (0 < matching keywords (map Text df_negative))%nat ->
  In (topic, percentage (matching keywords (map Text df_negative))
                        (List.length df_negative))
     (top_topics (map Text df_negative))
  \/ (List.length (top_topics (map Text df_negative)) = 5%nat
      /\ forall entry,
           In entry (top_topics (map Text df_negative)) ->
           (percentage (matching keywords (map Text df_negative))
                       (List.length df_negative)
            <= snd entry)%Q).
Proof.
  intros Hk Hpos.
  pose proof (topic_entry_listed (map Text df_negative) topic keywords Hk Hpos)
    as Hin.
  rewrite length_map in Hin. unfold top_topics. rewrite length_map.
  set (L := sorted_desc (fun y x => Qle_bool (snd y) (snd x))
              (topic_percentages (List.length df_negative)
                 (count_topics (map Text df_negative)))) in *.
  rewrite <- (firstn_skipn 5 L) in Hin. apply in_app_or in Hin.
  destruct Hin as [Hin|Hin]; [now left|]. right.
  assert (Hlen : (5 < List.length L)%nat).
  { destruct (Nat.lt_ge_cases 5 (List.length L)) as [H|H]; [exact H|].
    rewrite skipn_all2 in Hin by exact H. destruct Hin. }
  split; [rewrite length_firstn; lia|].
  intros entry He.
  assert (Hs : StronglySorted
                 (fun x y : string * Q => Qle_bool (snd y) (snd x) = true)
                 (firstn 5 L ++ skipn 5 L)%list).
  { rewrite firstn_skipn. unfold L.
    apply (sorted_desc_sorted (fun y x : string * Q => Qle_bool (snd y) (snd x))
             (fun x y => Qle_bool_total (snd x) (snd y))
             (fun x y z => Qle_bool_trans (snd x) (snd y) (snd z))). }
  apply Qle_bool_iff.
  exact (sorted_app_rel _ _ _ Hs entry _ He Hin).
Qed.

Lemma X20_report_holds_most_frequent_topics_witness :
  In ("Packaging", percentage 1 3) (top_topics (map Text three_complaints))
  \/ (List.length (top_topics (map Text three_complaints)) = 5%nat
      /\ forall entry,
           In entry (top_topics (map Text three_complaints)) ->
           (percentage 1 3 <= snd entry)%Q).
Proof.
  apply (X20_report_holds_most_frequent_topics three_complaints "Packaging"
           ["packaging"; "box"; "wrapped"; "container"; "sealed"; "package";
            "crushed"]).
  - simpl. tauto.
  - vm_compute. lia.
Defined.

Lemma report_lines_nil (start : nat) (entries : list (string * Q)) :
  report_lines start entries = [] -> entries = [].
Proof. destruct entries as [|[t p] rest]; [reflexivity | discriminate]. Qed.

Lemma report_text_empty (entries : list (string * Q)) :
  join newline (report_lines 1 entries) = "" <-> entries = [].
Proof.
  split; [|intros ->; reflexivity].
  destruct entries as [|[t p] rest]; [reflexivity|]. discriminate.
Qed.

Lemma matching_zero (keywords texts : list string) :
  matching keywords texts = 0%nat
  <-> forall text, In text texts -> any_in keywords (lower text) = false.
Proof.
  unfold matching. induction texts as [|t texts IH]; simpl; [tauto|].
  destruct (any_in keywords (lower t)) eqn:E; simpl.
  - split; [discriminate|]. intros H.
    specialize (H t (or_introl eq_refl)). congruence.
  - rewrite IH. split.
    + intros H text [<-|Hin]; [exact E | now apply H].
    + intros H text Hin. apply H. now right.
Qed.

(** X21.  The report is the empty text exactly when no review of the
    Negative subset contains a keyword of any topic. *)
Theorem X21_report_empty_iff_no_keyword (df_negative : list review) :
  extract_topics_rule_based df_negative = ""
  <-> forall r topic keywords,
        In r df_negative ->
        In (topic, keywords) topic_keywords ->
        any_in keywords (lower (Text r)) = false.
Proof.
  unfold extract_topics_rule_based. rewrite report_text_empty. split.
  - intros Hnil r topic keywords Hr Hk.
    destruct (Nat.eq_dec (matching keywords (map Text df_negative)) 0)
      as [Hz|Hnz].
    + apply (proj1 (matching_zero _ _) Hz). now apply in_map.
    + exfalso.
      assert (Hpos : (0 < matching keywords (map Text df_negative))%nat)
        by lia.
      pose proof (topic_entry_listed _ topic keywords Hk Hpos) as Hin.
      unfold top_topics in Hnil.
      destruct (sorted_desc _ _) as [|e L]; [destruct Hin | discriminate Hnil].
  - intros Hnone.
    destruct (top_topics (map Text df_negative)) as [|[topic pct] rest] eqn:E;
      [reflexivity|].
    exfalso.
    assert (Hin : In (topic, pct) (top_topics (map Text df_negative))).
    { rewrite E. now left. }
    apply top_topics_entry in Hin.
    destruct Hin as [keywords (Hk & Hpos & _)].
    assert (Hz : matching keywords (map Text df_negative) = 0%nat).
    { apply matching_zero. intros text Ht. apply in_map_iff in Ht.
      destruct Ht as [r [<- Hr]]. now apply (Hnone r topic). }
    lia.
Qed.

Lemma X21_report_empty_iff_no_keyword_witness :
  extract_topics_rule_based [negative_review "Nothing to say"] = "".
Proof.
  apply (proj2 (X21_report_empty_iff_no_keyword
                  [negative_review "Nothing to say"])).
  intros r topic keywords [<-|[]] Hk. simpl in Hk.
  repeat (destruct Hk as [Hk|Hk]; [injection Hk as <- <-; reflexivity|]).
  destruct Hk.
Defined.

End TopicReportCoverage.
